(** * Reservation core of myakumyaku_py: time adjuster, cookie health,
      availability poller, submission racer and schedule trigger.

    The development embeds the relevant functions of [FullAutoReserver.py]
    and [ManualReserver.py] and states the properties of the specification
    against them.  Console output ([print]) is not part of the model. *)

From Stdlib Require Import ZArith QArith Lia String Ascii Sorted.
From stdpp Require Import gmap list.

Local Open Scope Z_scope.

(** ** Python values shared by every component *)

(** A Python [str] is a sequence of Unicode code points. *)
Abbreviation pystr := (list N).

(** An ASCII literal as a Python string. *)
Definition str (s : string) : pystr :=
  (fun a => N_of_ascii a) <$> list_ascii_of_string s.

(** The exceptions that the modelled code can raise. *)
Inductive exc : Type :=
| ValueError
| KeyError
| TypeError
| AttributeError
| TransportError.

(** Result of a call that either returns or raises. *)
Inductive res (A : Type) : Type :=
| Ret (a : A)
| Raise (e : exc).
Arguments Ret {A} a.
Arguments Raise {A} e.

Definition bind {A B : Type} (m : res A) (k : A -> res B) : res B :=
  match m with
  | Ret a => k a
  | Raise e => Raise e
  end.

Notation "x <- m ;; k" := (bind m (fun x => k))
  (at level 100, m at next level, right associativity).

(** [str.isspace]: the characters that [str.strip()] removes. *)
Definition isspace_char (c : N) : bool :=
  ((9 <=? c) && (c <=? 13) || (28 <=? c) && (c <=? 32)
   || (c =? 0x85) || (c =? 0xA0) || (c =? 0x1680)
   || (0x2000 <=? c) && (c <=? 0x200A)
   || (c =? 0x2028) || (c =? 0x2029) || (c =? 0x202F)
   || (c =? 0x205F) || (c =? 0x3000))%N.

Fixpoint lstrip (s : pystr) : pystr :=
  match s with
  | c :: s' => if isspace_char c then lstrip s' else s
  | [] => []
  end.

(** [s.strip()] *)
Definition strip (s : pystr) : pystr := rev (lstrip (rev (lstrip s))).

(** Time stamps of [time.time()], in seconds. *)
Definition Qltb (a b : Q) : bool := negb (Qle_bool b a).

(** A Python [float] as [json.load] can return it. *)
Inductive pyfloat : Type :=
| Finite (q : Q)
| Infinite (negative : bool)
| NotANumber.

(** A value returned by [json.load]. *)
#[warnings="-register-all"]
Inductive json_value : Type :=
| JNull
| JBool (b : bool)
| JInt (n : Z)
| JFloat (x : pyfloat)
| JString (text : pystr)
| JArray (items : list json_value)
| JObject (members : list (pystr * json_value)).

(** The truth value of a loaded value, as [not v] and [if v] test it. *)
Definition truthy (v : json_value) : bool :=
  match v with
  | JNull => false
  | JBool b => b
  | JInt n => negb (n =? 0)
  | JFloat (Finite q) => negb (Qeq_bool q 0)
  | JFloat _ => true
  | JString [] => false
  | JString _ => true
  | JArray [] => false
  | JArray _ => true
  | JObject [] => false
  | JObject _ => true
  end.

(** ** Time Adjuster: [adjust_time_for_post] *)

Module TimeAdjuster.

(** [str(n)] for a non-negative number given by its decimal digits. *)
Fixpoint uint_codes (u : Decimal.uint) : pystr :=
  match u with
  | Decimal.Nil => []
  | Decimal.D0 u => 48%N :: uint_codes u
  | Decimal.D1 u => 49%N :: uint_codes u
  | Decimal.D2 u => 50%N :: uint_codes u
  | Decimal.D3 u => 51%N :: uint_codes u
  | Decimal.D4 u => 52%N :: uint_codes u
  | Decimal.D5 u => 53%N :: uint_codes u
  | Decimal.D6 u => 54%N :: uint_codes u
  | Decimal.D7 u => 55%N :: uint_codes u
  | Decimal.D8 u => 56%N :: uint_codes u
  | Decimal.D9 u => 57%N :: uint_codes u
  end.

(** The format specification [:02d]: decimal digits, a minus sign for a
    negative number, zero-filled after the sign up to a total width of 2. *)
Definition format_02d (n : Z) : pystr :=
  let digits := uint_codes (N.to_uint (Z.abs_N n)) in
  if n <? 0 then 45%N :: digits
  else if (length digits <? 2)%nat then 48%N :: digits
  else digits.

Section Unicode.

(** The Unicode character database of the interpreter outside ASCII:
    the value of the Digit property (Numeric_Type Digit or Decimal) and
    of the Decimal property of a code point. *)
Variable unicode_digit : N -> option Z.
Variable unicode_decimal : N -> option Z.

Definition ascii_digit (c : N) : option Z :=
  if ((48 <=? c) && (c <=? 57))%N then Some (Z.of_N c - 48) else None.

(** [_PyUnicode_ToDigit] *)
Definition to_digit (c : N) : option Z :=
  if (c <? 128)%N then ascii_digit c else unicode_digit c.

(** [_PyUnicode_ToDecimalDigit] *)
Definition to_decimal (c : N) : option Z :=
  if (c <? 128)%N then ascii_digit c else unicode_decimal c.

(** [str.isdigit]: non-empty and every character has the Digit
    property. *)
Definition isdigit (t : pystr) : bool :=
  match t with
  | [] => false
  | _ => forallb (fun c => bool_decide (is_Some (to_digit c))) t
  end.

(** [int(s)] on a string without sign, blank or underscore (the guard
    [t.isdigit()] leaves no other string at the two call sites): every
    character must be a decimal digit, otherwise [ValueError]. *)
Fixpoint int_from (acc : Z) (s : pystr) : res Z :=
  match s with
  | [] => Ret acc
  | c :: s' =>
      match to_decimal c with
      | Some d => int_from (acc * 10 + d) s'
      | None => Raise ValueError
      end
  end.

Definition int (s : pystr) : res Z :=
  match s with
  | [] => Raise ValueError
  | _ => int_from 0 s
  end.

(** [adjust_time_for_post(pavilion, t)]; [adjustments] is what
    [load_adjustments()] returns at the call (the empty table when the
    file is missing or unreadable). *)
Definition adjust_time_for_post
    (adjustments : gmap pystr Z) (pavilion t : pystr) : res pystr :=
  if negb (isdigit t) || negb (length t =? 4)%nat then Ret t
  else
    let offset := default 0 (adjustments !! pavilion) in
    hh <- int (take 2 t) ;;
    mm <- int (drop 2 t) ;;
    let total := hh * 60 + mm + offset in
    let total := total mod (24 * 60) in
    let new_hh := total / 60 in
    let new_mm := total mod 60 in
    Ret (format_02d new_hh ++ format_02d new_mm).

End Unicode.

(** An excerpt of the Unicode database: SUPERSCRIPT TWO, THREE and ONE
    have the Digit property but not the Decimal one; the FULLWIDTH DIGITs
    have both. *)
Definition excerpt_decimal (c : N) : option Z :=
  if ((0xFF10 <=? c) && (c <=? 0xFF19))%N then Some (Z.of_N c - 0xFF10)
  else None.

Definition excerpt_digit (c : N) : option Z :=
  if (c =? 0xB2)%N then Some 2
  else if (c =? 0xB3)%N then Some 3
  else if (c =? 0xB9)%N then Some 1
  else excerpt_decimal c.

(** The specification's reading of a time string: minutes since midnight
    of four ASCII digits, and the way back. *)
Definition spec_to_minutes (t : pystr) : Z :=
  match t with
  | [h1; h2; m1; m2] =>
      (Z.of_N h1 - 48) * 600 + (Z.of_N h2 - 48) * 60
      + (Z.of_N m1 - 48) * 10 + (Z.of_N m2 - 48)
  | _ => 0
  end.

Definition spec_hhmm (m : Z) : pystr :=
  [Z.to_N (48 + m / 60 / 10); Z.to_N (48 + (m / 60) mod 10);
   Z.to_N (48 + (m mod 60) / 10); Z.to_N (48 + (m mod 60) mod 10)].

Definition is_ascii_digit (c : N) : Prop := (48 <= c <= 57)%N.

End TimeAdjuster.

(** ** Cookie Health Monitor and Recovery
    ([check_cookie_validity], [relogin_and_update_cookie],
    [cookie_monitor_loop]; the same code in both programs, over
    [monitor_settings.json] in one and [form_data.json] in the other) *)

Module CookieHealth.

(** The texts stored under [cookie_status["message"]]. *)
Inductive message : Type :=
| Unchecked              (* "未チェック" *)
| Checking               (* "チェック中..." *)
| CookieUnset            (* "❌ Cookie未設定" *)
| CookieValid            (* "✅ Cookie有効" *)
| CookieInvalid (status_code : Z)  (* "❌ Cookie無効 (Status: ...)" *)
| CheckError             (* "❌ エラー" *)
| ReloginSucceeded       (* "✅ 再ログイン成功" *)
| ReloginFailed.         (* "❌ 再ログイン失敗" *)

Record cookie_status : Type := {
  valid : option bool;
  last_check : option pystr;
  status_message : message;
  checking : bool
}.

(** One element of [cookie_invalid_log]. *)
Record log_entry : Type := {
  time : pystr;
  reason : message
}.

Record health : Type := {
  status : cookie_status;
  cookie_invalid_log : list log_entry
}.

Definition initial : health := {|
  status := {| valid := None; last_check := None;
               status_message := Unchecked; checking := false |};
  cookie_invalid_log := []
|}.

(** The settings file as the cookie code uses it: the ["cookie"] entry
    and the other entries (key and serialised value), which are carried
    along unchanged. *)
Record settings : Type := {
  cookie : option pystr;
  other_entries : gmap pystr pystr
}.

Definition empty_settings : settings :=
  {| cookie := None; other_entries := ∅ |}.

(** The two files the recovery touches; [None] is a file that does not
    exist. *)
Record files : Type := {
  settings_file : option settings;
  cookie_txt : option pystr
}.

(** [load_settings()] / [load_form_data()] *)
Definition load_settings (fs : files) : settings :=
  default empty_settings (settings_file fs).

(** [save_settings(data)] / [save_form_data(data)] *)
Definition save_settings (data : settings) (fs : files) : files :=
  {| settings_file := Some data; cookie_txt := cookie_txt fs |}.

Definition set_message (m : message) (c : cookie_status) : cookie_status :=
  {| valid := valid c; last_check := last_check c;
     status_message := m; checking := checking c |}.

Definition set_checking (b : bool) (c : cookie_status) : cookie_status :=
  {| valid := valid c; last_check := last_check c;
     status_message := status_message c; checking := b |}.

Definition set_result (v : bool) (m : message) (now : pystr)
    (c : cookie_status) : cookie_status :=
  {| valid := Some v; last_check := Some now;
     status_message := m; checking := checking c |}.

(** [cookie_invalid_log.append(e)] followed by
    [if len(cookie_invalid_log) > 100: cookie_invalid_log.pop(0)]. *)
Definition record_invalid (e : log_entry) (log : list log_entry)
  : list log_entry :=
  let log := log ++ [e] in
  if (100 <? length log)%nat then drop 1 log else log.

(** [check_cookie_validity()].  [http] is the outcome of the GET of the
    account-info endpoint (a status code, or a transport exception);
    [now_long] and [now_short] are the two renderings of [datetime.now()]. *)
Definition check_cookie_validity (fs : files) (http : res Z)
    (now_long now_short : pystr) (h : health) : health * bool :=
  let st := set_message Checking (set_checking true (status h)) in
  let ck := default [] (cookie (load_settings fs)) in
  let '(st, log, result) :=
    match ck with
    | [] => (set_result false CookieUnset now_short st,
             cookie_invalid_log h, false)
    | _ =>
        match http with
        | Ret code =>
            if code =? 200 then
              (set_result true CookieValid now_short st,
               cookie_invalid_log h, true)
            else
              let m := CookieInvalid code in
              (set_result false m now_short st,
               record_invalid {| time := now_long; reason := m |}
                 (cookie_invalid_log h),
               false)
        | Raise _ =>
            (set_result false CheckError now_short st,
             cookie_invalid_log h, false)
        end
    end in
  ({| status := set_checking false st; cookie_invalid_log := log |}, result).

(** [relogin_and_update_cookie()].  [proc] is the outcome of
    [subprocess.run] (the return code, or an exception such as the
    120-second timeout) and [fs] the files as the subprocess left them. *)
Definition relogin_and_update_cookie (proc : res Z) (now_short : pystr)
    (fs : files) (c : cookie_status) : files * cookie_status * bool :=
  match proc with
  | Raise _ => (fs, set_message ReloginFailed c, false)
  | Ret returncode =>
      (* a non-zero return code is printed and nothing else *)
      match cookie_txt fs with
      | Some content =>
          match strip content with
          | [] => (fs, set_message ReloginFailed c, false)
          | new_cookie =>
              let data := load_settings fs in
              let data := {| cookie := Some new_cookie;
                             other_entries := other_entries data |} in
              (save_settings data fs,
               set_result true ReloginSucceeded now_short c, true)
          end
      | None => (fs, set_message ReloginFailed c, false)
      end
  end.







End CookieHealth.

(** ** HTTP responses of the reservation endpoint *)

(** The body of a response as [r.json()] sees it. *)
Inductive body : Type :=
| NotJson                             (* [r.json()] raises *)
| JsonObject (keys : list pystr)
| JsonArray (strings : list pystr)    (* the string elements of a list *)
| JsonString (text : pystr)
| JsonScalar.                         (* number, boolean or null *)

Record response : Type := {
  status_code : Z;
  json : body
}.

(** The request body of the reservation POST. *)
Record payload : Type := {
  p_ticket_ids : list pystr;
  p_entrance_date : pystr;
  p_start_time : pystr;
  p_event_code : pystr;
  p_registered_channel : pystr
}.

(** Values of the JSON object returned by [/status]. *)
Inductive status_value : Type :=
| SBool (b : bool)
| SInt (n : Z)
| SNull
| SStr (text : pystr).

(** What the code sends out. *)
Inductive effect : Type :=
| SentGet
| SentPost (p : payload)
| CalledNotify (event_code start_time : pystr).

Definition is_post (e : effect) : bool :=
  match e with
  | SentPost _ => true
  | _ => false
  end.

(** ** Availability Poller and Submission Racer of [FullAutoReserver.py] *)

Module FullAuto.

(** The values taken by [current_state]. *)
Inductive phase : Type :=
| Idle
| Starting
| Monitoring
| Posting
| Success.

Definition phase_name (p : phase) : pystr :=
  match p with
  | Idle => str "idle"
  | Starting => str "starting"
  | Monitoring => str "monitoring"
  | Posting => str "posting"
  | Success => str "success"
  end.

(** The module-level variables of the run. *)
Record globals : Type := {
  running : bool;
  last_status_code : option Z;
  status_code_count : Z;
  no_vacancy_count : Z;
  current_state : phase
}.

Definition initial : globals := {|
  running := false;
  last_status_code := None;
  status_code_count := 0;
  no_vacancy_count := 0;
  current_state := Idle
|}.

Definition set_running (b : bool) (g : globals) : globals :=
  {| running := b; last_status_code := last_status_code g;
     status_code_count := status_code_count g;
     no_vacancy_count := no_vacancy_count g;
     current_state := current_state g |}.

Definition set_state (p : phase) (g : globals) : globals :=
  {| running := running g; last_status_code := last_status_code g;
     status_code_count := status_code_count g;
     no_vacancy_count := no_vacancy_count g;
     current_state := p |}.

Definition set_no_vacancy (n : Z) (g : globals) : globals :=
  {| running := running g; last_status_code := last_status_code g;
     status_code_count := status_code_count g;
     no_vacancy_count := n;
     current_state := current_state g |}.

Definition set_status (code : option Z) (n : Z) (g : globals) : globals :=
  {| running := running g; last_status_code := code;
     status_code_count := n;
     no_vacancy_count := no_vacancy_count g;
     current_state := current_state g |}.

(** [if r.status_code == last_status_code: status_code_count += 1
     else: last_status_code = r.status_code; status_code_count = 1] *)
Definition count_status (code : Z) (g : globals) : globals :=
  if bool_decide (last_status_code g = Some code)
  then set_status (last_status_code g) (status_code_count g + 1) g
  else set_status (Some code) 1 g.

(** [get_status()], the handler of [/status]. *)
Definition get_status (g : globals) : gmap pystr status_value :=
  {[ str "running" := SBool (running g);
     str "status_code" := from_option SInt SNull (last_status_code g);
     str "count" := SInt (status_code_count g);
     str "no_vacancy_count" := SInt (no_vacancy_count g);
     str "state" := SStr (phase_name (current_state g)) ]}.

(** One slot of the availability snapshot. *)
Record slot : Type := {
  t : pystr;
  s : Z
}.

Abbreviation availability := (gmap pystr (list slot)).

(** The inner [for slot in slots] of the scan. *)
Fixpoint first_open (slots : list slot) : option pystr :=
  match slots with
  | [] => None
  | sl :: rest => if 0 <? s sl then Some (t sl) else first_open rest
  end.

(** The scan that sets [found_target]. *)
Fixpoint find_target (pavilion_ids : list pystr) (data : availability)
  : option (pystr * pystr) :=
  match pavilion_ids with
  | [] => None
  | pid :: rest =>
      match data !! pid with
      | Some slots =>
          match first_open slots with
          | Some start => Some (pid, start)
          | None => find_target rest data
          end
      | None => find_target rest data
      end
  end.

(** What a step of the monitor thread reads from outside: nothing, the
    clock, the outcome of the availability GET (status code and parsed
    body) or the outcome of the reservation POST. *)
Inductive input : Type :=
| NoInput
| Clock (now : Q)
| GetResult (r : res (Z * res availability))
| PostResult (r : res response).

(** The arguments of [monitor_task]. *)
Record args : Type := {
  pavilion_ids : list pystr;
  interval : Q;
  post_duration : Z;
  cookie : pystr;
  ticket_ids : list pystr;
  entrance_date : pystr;
  post_min : Q;
  post_max : Q;
  webhook_url : pystr
}.

(** [body = r.json()] with [{}] on failure, then
    [r.status_code == 200 and body == {}]. *)
Definition is_success (r : response) : bool :=
  (status_code r =? 200) &&
  match json r with
  | NotJson => true
  | JsonObject [] => true
  | _ => false
  end.

(** The locals of the POST loop. *)
Record posting : Type := {
  pavilion : pystr;
  start_time : pystr;
  request : payload;
  end_time : Q;
  post_count : Z
}.

(** Where a thread running [monitor_task] stands. *)
Inductive pc : Type :=
| AtEntry                  (* [current_state = "monitoring"] *)
| AtLoop                   (* [while running:] *)
| AtGet                    (* [res = requests.get(...)] and the scan *)
| AtFound (pavilion start_time : pystr)   (* [current_state = "posting"] *)
| AtPostLoop (l : posting) (* [while running and time.time() < end_time:] *)
| AtPost (l : posting)     (* [r = requests.post(...)] *)
| AtWait (l : posting)     (* [time.sleep(wait_time)] *)
| AtSuccess (l : posting)  (* notification, [running = False] *)
| AtSuccess2               (* [current_state = "success"; return] *)
| AtPostEnd                (* [current_state = "monitoring"], counters *)
| AtSleep                  (* [time.sleep(interval)] *)
| AtExit                   (* [current_state = "idle"] *)
| Done.

Section Task.

(** [adjust_time_for_post] with the tables it reads. *)
Variable adjust_time_for_post : pystr -> pystr -> res pystr.

(** One step of [monitor_task]: the new globals, the new position and
    what was sent.  [None]: the thread cannot move with this input. *)
Definition monitor_step (a : args) (i : input)
    (g : globals) (l : pc) : option (globals * pc * list effect) :=
  match l, i with
  | AtEntry, NoInput => Some (set_state Monitoring g, AtLoop, [])
  | AtLoop, NoInput =>
      if running g then Some (g, AtGet, []) else Some (g, AtExit, [])
  | AtGet, GetResult r =>
      match r with
      | Raise _ => Some (g, AtSleep, [SentGet])
      | Ret (code, parsed) =>
          if negb (code =? 200) then Some (g, AtSleep, [SentGet])
          else
            match parsed with
            | Raise _ => Some (g, AtSleep, [SentGet])
            | Ret data =>
                match find_target (pavilion_ids a) data with
                | Some (p, start) => Some (g, AtFound p start, [SentGet])
                | None =>
                    Some (set_no_vacancy (no_vacancy_count g + 1) g,
                          AtSleep, [SentGet])
                end
            end
      end
  | AtFound p start, Clock now =>
      let g := set_no_vacancy 0 (set_state Posting g) in
      match adjust_time_for_post p start with
      | Raise _ => Some (g, AtSleep, [])
      | Ret adjusted =>
          Some (g,
                AtPostLoop {|
                  pavilion := p; start_time := start;
                  request := {| p_ticket_ids := ticket_ids a;
                                p_entrance_date := entrance_date a;
                                p_start_time := adjusted;
                                p_event_code := p;
                                p_registered_channel := str "5" |};
                  end_time := (now + inject_Z (post_duration a))%Q;
                  post_count := 0 |},
                [])
      end
  | AtPostLoop l, Clock now =>
      if running g && Qltb now (end_time l) then
        Some (g,
              AtPost {| pavilion := pavilion l; start_time := start_time l;
                        request := request l; end_time := end_time l;
                        post_count := post_count l + 1 |},
              [])
      else Some (g, AtPostEnd, [])
  | AtPost l, PostResult r =>
      match r with
      | Raise _ => Some (g, AtSleep, [SentPost (request l)])
      | Ret r =>
          let g := count_status (status_code r) g in
          if is_success r then
            Some (g, AtSuccess l, [SentPost (request l)])
          else Some (g, AtWait l, [SentPost (request l)])
      end
  | AtWait l, NoInput => Some (g, AtPostLoop l, [])
  | AtSuccess l, NoInput =>
      Some (set_running false g, AtSuccess2,
            match webhook_url a with
            | [] => []
            | _ => [CalledNotify (pavilion l) (start_time l)]
            end)
  | AtSuccess2, NoInput => Some (set_state Success g, Done, [])
  | AtPostEnd, NoInput =>
      Some (set_status None 0 (set_state Monitoring g), AtSleep, [])
  | AtSleep, NoInput => Some (g, AtLoop, [])
  | AtExit, NoInput => Some (set_state Idle g, Done, [])
  | _, _ => None
  end.

(** A thread run on its own for a list of inputs. *)
Fixpoint run_thread (a : args) (inputs : list input)
    (g : globals) (l : pc) : option (globals * pc * list effect) :=
  match inputs with
  | [] => Some (g, l, [])
  | i :: rest =>
      match monitor_step a i g l with
      | Some (g, l, sent) =>
          match run_thread a rest g l with
          | Some (g, l, sent') => Some (g, l, sent ++ sent')
          | None => None
          end
      | None => None
      end
  end.

(** The [/start] handler between its statements. *)
Inductive handler : Type :=
| HIdle
| HSetRunning (a : args)  (* passed [if running:], settings saved *)
| HSetState (a : args)    (* before [current_state = "starting"] *)
| HSpawn (a : args).      (* before [monitor_thread.start()] *)

(** The process: the globals, the request being handled and the
    threads started so far. *)
Record system : Type := {
  glob : globals;
  serving : handler;
  threads : list (args * pc)
}.

Definition boot : system :=
  {| glob := initial; serving := HIdle; threads := [] |}.

Inductive action : Type :=
| StartRequest (a : args)
| HandlerStep
| StopRequest
| ThreadStep (n : nat) (i : input).

Definition sys_step (act : action) (sy : system) : option system :=
  match act with
  | StartRequest a =>
      match serving sy with
      | HIdle =>
          if running (glob sy) then Some sy
          else Some {| glob := glob sy; serving := HSetRunning a;
                       threads := threads sy |}
      | _ => None
      end
  | HandlerStep =>
      match serving sy with
      | HIdle => None
      | HSetRunning a =>
          Some {| glob := set_no_vacancy 0
                            (set_status None 0 (set_running true (glob sy)));
                  serving := HSetState a; threads := threads sy |}
      | HSetState a =>
          Some {| glob := set_state Starting (glob sy);
                  serving := HSpawn a; threads := threads sy |}
      | HSpawn a =>
          Some {| glob := glob sy; serving := HIdle;
                  threads := threads sy ++ [(a, AtEntry)] |}
      end
  | StopRequest =>
      match serving sy with
      | HIdle => Some {| glob := set_running false (glob sy);
                         serving := HIdle; threads := threads sy |}
      | _ => None
      end
  | ThreadStep n i =>
      match threads sy !! n with
      | Some (a, l) =>
          match monitor_step a i (glob sy) l with
          | Some (g, l', _) =>
              Some {| glob := g; serving := serving sy;
                      threads := <[n := (a, l')]> (threads sy) |}
          | None => None
          end
      | None => None
      end
  end.

Fixpoint sys_run (acts : list action) (sy : system) : option system :=
  match acts with
  | [] => Some sy
  | act :: rest =>
      match sys_step act sy with
      | Some sy' => sys_run rest sy'
      | None => None
      end
  end.





End Task.

End FullAuto.

(** ** Submission Racer and Schedule Trigger of [ManualReserver.py] *)

Module Manual.

(** The module-level variables of the run; this program keeps no phase. *)
Record globals : Type := {
  running : bool;
  last_status_code : option Z;
  status_code_count : Z;
  request_count : Z
}.

Definition initial : globals := {|
  running := false;
  last_status_code := None;
  status_code_count := 0;
  request_count := 0
|}.

Definition set_running (b : bool) (g : globals) : globals :=
  {| running := b; last_status_code := last_status_code g;
     status_code_count := status_code_count g;
     request_count := request_count g |}.

Definition set_status (code : option Z) (n : Z) (g : globals) : globals :=
  {| running := running g; last_status_code := code;
     status_code_count := n; request_count := request_count g |}.

Definition set_request_count (n : Z) (g : globals) : globals :=
  {| running := running g; last_status_code := last_status_code g;
     status_code_count := status_code_count g; request_count := n |}.

Definition count_status (code : Z) (g : globals) : globals :=
  if bool_decide (last_status_code g = Some code)
  then set_status (last_status_code g) (status_code_count g + 1) g
  else set_status (Some code) 1 g.

(** [get_status()], the handler of [/status]. *)
Definition get_status (g : globals) : gmap pystr status_value :=
  {[ str "running" := SBool (running g);
     str "status_code" := from_option SInt SNull (last_status_code g);
     str "count" := SInt (status_code_count g) ]}.

(** [needle in text] on two strings. *)
Fixpoint starts_with (needle text : pystr) : bool :=
  match needle, text with
  | [], _ => true
  | c :: needle', d :: text' => (c =? d)%N && starts_with needle' text'
  | _ :: _, [] => false
  end.

Fixpoint contains (needle text : pystr) : bool :=
  starts_with needle text ||
  match text with
  | [] => false
  | _ :: text' => contains needle text'
  end.

Definition reservation_key : pystr := str "user_visiting_reservation_ids".

(** [data = r.json()] with [{}] on failure, then
    [r.status_code == 200 and
     ("user_visiting_reservation_ids" in data or data == {})];
    [in] raises on a number, a boolean or null. *)
Definition is_success (r : response) : res bool :=
  if negb (status_code r =? 200) then Ret false
  else
    match json r with
    | NotJson => Ret true
    | JsonObject keys =>
        Ret (bool_decide (reservation_key ∈ keys)
             || bool_decide (keys = []))
    | JsonArray strings => Ret (bool_decide (reservation_key ∈ strings))
    | JsonString text => Ret (contains reservation_key text)
    | JsonScalar => Raise TypeError
    end.

(** [send_single_request], from the moment the response (or the
    transport exception) arrives. *)
Definition send_single_request (webhook_url : pystr) (p : payload)
    (r : res response) (g : globals) : globals * list effect :=
  match r with
  | Raise _ => (g, [])
  | Ret r =>
      let g := count_status (status_code r) g in
      match is_success r with
      | Ret true =>
          (set_running false g,
           match webhook_url with
           | [] => []
           | _ => [CalledNotify (p_event_code p) (p_start_time p)]
           end)
      | Ret false => (g, [])
      | Raise _ => (g, [])
      end
  end.

(** The arguments of [reservation_task]. *)
Record racer_args : Type := {
  r_ticket_ids : list pystr;
  r_entrance_date : pystr;
  r_start_time : pystr;
  r_event_code : pystr;
  r_cookie : pystr;
  r_min_interval : Q;
  r_max_interval : Q;
  r_time_limit : option Z;
  r_webhook_url : pystr
}.

(** Where the thread running [reservation_task] stands. *)
Inductive racer_pc : Type :=
| RAtEntry                              (* payload, [request_count = 0] *)
| RAtLoop (p : payload) (start_timestamp : Q)   (* [while running:] *)
| RAtBody (p : payload) (start_timestamp : Q)   (* limit test, dispatch *)
| RAtSleep (p : payload) (start_timestamp : Q)  (* [time.sleep(...)] *)
| RDone
| RCrashed (e : exc).

(** A thread running [send_single_request]. *)
Inductive sender_pc : Type :=
| InFlight (p : payload) (attempt_num : Z)
| Finished.

(** [if time_limit and (time.time() - start_timestamp) >= time_limit] *)
Definition limit_reached (time_limit : option Z) (now start_timestamp : Q)
  : bool :=
  match time_limit with
  | None => false
  | Some limit =>
      negb (limit =? 0) && Qle_bool (inject_Z limit) (now - start_timestamp)
  end.

Section Task.

Variable adjust_time_for_post : pystr -> pystr -> res pystr.

(** One step of [reservation_task] at clock reading [now]: the new
    globals, the new position, the sender threads started and what was
    sent.  The test of the flag is a step of its own; the limit test and
    the dispatch of the request make the next one. *)
Definition racer_step (a : racer_args) (now : Q) (g : globals)
    (l : racer_pc) : option (globals * racer_pc * list sender_pc * list effect) :=
  match l with
  | RAtEntry =>
      match adjust_time_for_post (r_event_code a) (r_start_time a) with
      | Raise e => Some (g, RCrashed e, [], [])
      | Ret adjusted_time =>
          Some (set_request_count 0 g,
                RAtLoop {| p_ticket_ids := r_ticket_ids a;
                           p_entrance_date := r_entrance_date a;
                           p_start_time := adjusted_time;
                           p_event_code := r_event_code a;
                           p_registered_channel := str "5" |} now,
                [], [])
      end
  | RAtLoop p start_timestamp =>
      if running g then Some (g, RAtBody p start_timestamp, [], [])
      else Some (g, RDone, [], [])
  | RAtBody p start_timestamp =>
      if limit_reached (r_time_limit a) now start_timestamp then
        Some (set_running false g, RDone, [], [])
      else
        let g := set_request_count (request_count g + 1) g in
        Some (g, RAtSleep p start_timestamp,
              [InFlight p (request_count g)], [SentPost p])
  | RAtSleep p start_timestamp => Some (g, RAtLoop p start_timestamp, [], [])
  | RDone => None
  | RCrashed _ => None
  end.


(** A racer together with the requests it has in flight. *)
Record system : Type := {
  glob : globals;
  racer : racer_pc;
  senders : list sender_pc;
  sent : list effect
}.

Inductive action : Type :=
| RacerStep (now : Q)
| ResponseArrives (n : nat) (r : res response).

Definition sys_step (a : racer_args) (act : action) (sy : system)
  : option system :=
  match act with
  | RacerStep now =>
      match racer_step a now (glob sy) (racer sy) with
      | Some (g, l, new, out) =>
          Some {| glob := g; racer := l; senders := senders sy ++ new;
                  sent := sent sy ++ out |}
      | None => None
      end
  | ResponseArrives n r =>
      match senders sy !! n with
      | Some (InFlight p _) =>
          let '(g, out) := send_single_request (r_webhook_url a) p r (glob sy) in
          Some {| glob := g; racer := racer sy;
                  senders := <[n := Finished]> (senders sy);
                  sent := sent sy ++ out |}
      | _ => None
      end
  end.

Fixpoint sys_run (a : racer_args) (acts : list action) (sy : system)
  : option system :=
  match acts with
  | [] => Some sy
  | act :: rest =>
      match sys_step a act sy with
      | Some sy' => sys_run a rest sy'
      | None => None
      end
  end.

End Task.

(** *** Schedule Trigger: [schedule_monitor] *)

(** One element of [scheduled_tasks.json], a JSON object; [None] is a
    missing key.  The three texts are as [/schedule/add] stores them;
    ["enabled"] is any loaded value, since the loop only tests it for
    truth. *)
Record schedule : Type := {
  trigger_time : option pystr;
  event_code : option pystr;
  start_time : option pystr;
  enabled : option json_value
}.

(** [schedule["enabled"] = False] *)
Definition disable (e : schedule) : schedule :=
  {| trigger_time := trigger_time e; event_code := event_code e;
     start_time := start_time e; enabled := Some (JBool false) |}.

(** What the firing branch makes of the saved form: the keys of
    [load_form_data()] with the defaults of [saved.get], the intervals after
    [float(...)]. *)
Record form_data : Type := {
  f_ticket_ids : pystr;
  f_entrance_date : pystr;
  f_cookie : pystr;
  f_min_interval : Q;
  f_max_interval : Q;
  f_webhook_url : pystr
}.

(** [s.split(",")] *)
Fixpoint split_comma (s : pystr) : list pystr :=
  match s with
  | [] => [[]]
  | c :: s' =>
      if (c =? 44)%N then [] :: split_comma s'
      else
        match split_comma s' with
        | piece :: pieces => (c :: piece) :: pieces
        | [] => [[c]]
        end
  end.

(** The state of one pass over the loaded list. *)
Record tick_state : Type := {
  tglob : globals;
  schedules : list schedule;        (* the list loaded at this tick *)
  schedule_file : list schedule;    (* [scheduled_tasks.json] *)
  started : list (nat * racer_args) (* racers started, with the entry's index *)
}.

(** [not schedule.get("enabled", True)] *)
Definition skipped (e : schedule) : bool :=
  negb (from_option truthy true (enabled e)).

(** [schedule_time == current_time and current_second == 0 and not running] *)
Definition due (current_time : pystr) (current_second : Z) (g : globals)
    (e : schedule) : bool :=
  bool_decide (default [] (trigger_time e) = current_time)
  && (current_second =? 0) && negb (running g).

Definition racer_for (saved : form_data) (e : schedule) : racer_args :=
  {| r_ticket_ids := strip <$> split_comma (f_ticket_ids saved);
     r_entrance_date := f_entrance_date saved;
     r_start_time := default [] (start_time e);
     r_event_code := default [] (event_code e);
     r_cookie := f_cookie saved;
     r_min_interval := f_min_interval saved;
     r_max_interval := f_max_interval saved;
     r_time_limit := Some 60;
     r_webhook_url := f_webhook_url saved |}.

(** The branch of [schedule_monitor] that fires the entry at [idx].  The
    globals are reset with the flag set; then the saved form is read, which
    can raise ([saved] is the outcome of [load_form_data()], of the
    [.split(",")] on its ticket ids and of the two [float(...)]: a
    [ValueError] of [json.load] or [float], an [AttributeError] of [.get] or
    [.split], a [TypeError] of [float]): the exception leaves the flag set
    with nothing started and nothing written.
    Otherwise the racer thread is started with the 60-second limit, then
    [schedule["enabled"] = False] and [save_schedules(schedules)]. *)
Definition fire (saved : res form_data) (idx : nat) (e : schedule)
    (st : tick_state) : tick_state * option exc :=
  let g := set_request_count 0
             (set_status None 0 (set_running true (tglob st))) in
  match saved with
  | Raise x =>
      ({| tglob := g;
          schedules := schedules st;
          schedule_file := schedule_file st;
          started := started st |}, Some x)
  | Ret saved =>
      let thread := (idx, racer_for saved e) in
      let sched := <[idx := disable e]> (schedules st) in
      ({| tglob := g;
          schedules := sched;
          schedule_file := sched;
          started := started st ++ [thread] |}, None)
  end.

(** The body of [for schedule in schedules:] in [schedule_monitor], for
    the entry at [idx]: the state afterwards and the exception that ended
    the thread, if any. *)
Definition monitor_entry (saved : res form_data) (current_time : pystr)
    (current_second : Z) (idx : nat) (e : schedule) (st : tick_state)
  : tick_state * option exc :=
  if skipped e then (st, None)
  else if due current_time current_second (tglob st) e then
    match event_code e with
    | None => (st, Some KeyError)  (* [schedule['event_code']] in the print *)
    | Some _ => fire saved idx e st
    end
  else (st, None).

(** The [for] loop from index [idx] on; [todo] are the entries not yet
    visited.  An exception ends the thread at the state it has reached. *)
Fixpoint monitor_entries (saved : res form_data) (current_time : pystr)
    (current_second : Z) (idx : nat) (todo : list schedule) (st : tick_state)
  : tick_state * option exc :=
  match todo with
  | [] => (st, None)
  | e :: rest =>
      match monitor_entry saved current_time current_second idx e st with
      | (st', None) =>
          monitor_entries saved current_time current_second (S idx) rest st'
      | (st', Some x) => (st', Some x)
      end
  end.

(** What one pass reads from outside: the clock, the globals as the other
    threads left them, and the outcome of reading the saved form, should
    the pass come to fire an entry. *)
Record tick_input : Type := {
  current_time : pystr;        (* [now.strftime("%H:%M")] *)
  current_second : Z;          (* [now.second] *)
  globals_now : globals;
  saved_now : res form_data
}.

(** The trigger thread and its file between passes. *)
Record scheduler : Type := {
  file : list schedule;             (* [scheduled_tasks.json] *)
  racers : list (nat * racer_args); (* racers started, with the entry's index *)
  crashed : option exc              (* the exception that ended the thread *)
}.

(** [schedule_monitor()], one pass of [while scheduler_running:]: the
    [for] loop over the list [loaded] by [load_schedules()] at the start of
    the pass, with the file as it is when the loop runs. *)
Definition schedule_pass (i : tick_input) (loaded : list schedule)
    (sc : scheduler) : scheduler * globals :=
  let '(st, x) :=
    monitor_entries (saved_now i) (current_time i) (current_second i) 0 loaded
      {| tglob := globals_now i; schedules := loaded;
         schedule_file := file sc; started := racers sc |} in
  ({| file := schedule_file st; racers := started st; crashed := x |},
   tglob st).

(** One pass with nothing else touching the file between its
    [load_schedules()] and its end. *)
Definition schedule_tick (i : tick_input) (sc : scheduler)
  : scheduler * globals :=
  schedule_pass i (file sc) sc.


(** The entry cannot fire at this tick: switched off, or not due. *)
Definition idle_entry (current_time : pystr) (current_second : Z)
    (g : globals) (e : schedule) : Prop :=
  skipped e = true \/ due current_time current_second g e = false.

(** How many racers were started for the entry at [idx]. *)
Definition fired (idx : nat) (l : list (nat * racer_args)) : nat :=
  length (filter (fun x => x.1 = idx) l).

(** *** The [/start] and [/stop] handlers *)

(** The fields of the form posted to [/start], as FastAPI hands them to
    the handler. *)
Record start_form : Type := {
  s_ticket_ids : pystr;
  s_entrance_date : pystr;
  s_start_time : pystr;
  s_event_code : pystr;
  s_cookie : pystr;
  s_min_interval : Q;
  s_max_interval : Q;
  s_webhook_url : pystr
}.

(** [start(...)]: the globals afterwards and, unless a run is under way,
    the form written by [save_form_data] and the arguments of the racer
    thread that is started, with [None] as [time_limit]. *)
Definition start (f : start_form) (g : globals)
  : globals * option (start_form * racer_args) :=
  if running g then (g, None)
  else
    (set_request_count 0 (set_status None 0 (set_running true g)),
     Some (f,
           {| r_ticket_ids := strip <$> split_comma (s_ticket_ids f);
              r_entrance_date := s_entrance_date f;
              r_start_time := s_start_time f;
              r_event_code := s_event_code f;
              r_cookie := s_cookie f;
              r_min_interval := s_min_interval f;
              r_max_interval := s_max_interval f;
              r_time_limit := None;
              r_webhook_url := s_webhook_url f |})).

(** [stop()] *)
Definition stop (g : globals) : globals := set_running false g.

End Manual.

(** ** Sample inputs *)

Module Samples.

(** The adjuster over an empty offset table. *)
Definition adjust : pystr -> pystr -> res pystr :=
  TimeAdjuster.adjust_time_for_post
    TimeAdjuster.excerpt_digit TimeAdjuster.excerpt_decimal ∅.

Definition monitor_args : FullAuto.args := {|
  FullAuto.pavilion_ids := [str "H1H9"];
  FullAuto.interval := 1%Q;
  FullAuto.post_duration := 10;
  FullAuto.cookie := str "session_id=CURRENT";
  FullAuto.ticket_ids := [str "T1"];
  FullAuto.entrance_date := str "20251001";
  FullAuto.post_min := 1%Q;
  FullAuto.post_max := 2%Q;
  FullAuto.webhook_url := []
|}.

(** The same arguments with [post_duration] 0. *)
Definition no_duration_args : FullAuto.args := {|
  FullAuto.pavilion_ids := [str "H1H9"];
  FullAuto.interval := 1%Q;
  FullAuto.post_duration := 0;
  FullAuto.cookie := str "session_id=CURRENT";
  FullAuto.ticket_ids := [str "T1"];
  FullAuto.entrance_date := str "20251001";
  FullAuto.post_min := 1%Q;
  FullAuto.post_max := 2%Q;
  FullAuto.webhook_url := []
|}.

Definition request : payload := {|
  p_ticket_ids := [str "T1"];
  p_entrance_date := str "20251001";
  p_start_time := str "1900";
  p_event_code := str "H1H9";
  p_registered_channel := str "5"
|}.

Definition posting : FullAuto.posting := {|
  FullAuto.pavilion := str "H1H9";
  FullAuto.start_time := str "1900";
  FullAuto.request := request;
  FullAuto.end_time := 10%Q;
  FullAuto.post_count := 1
|}.



Definition racer_args (time_limit : option Z) : Manual.racer_args := {|
  Manual.r_ticket_ids := [str "T1"];
  Manual.r_entrance_date := str "20251001";
  Manual.r_start_time := str "1900";
  Manual.r_event_code := str "H1H9";
  Manual.r_cookie := str "session_id=CURRENT";
  Manual.r_min_interval := 0.5%Q;
  Manual.r_max_interval := 3.5%Q;
  Manual.r_time_limit := time_limit;
  Manual.r_webhook_url := []
|}.

Definition busy : Manual.globals :=
  Manual.set_running true Manual.initial.


Definition saved_form : Manual.form_data := {|
  Manual.f_ticket_ids := str "T1,T2";
  Manual.f_entrance_date := str "20251001";
  Manual.f_cookie := str "session_id=CURRENT";
  Manual.f_min_interval := 0.5%Q;
  Manual.f_max_interval := 3.5%Q;
  Manual.f_webhook_url := []
|}.

(** An entry for 09:00 as [/schedule/add] writes it, and the same entry
    without the [enabled] key. *)
Definition entry_with (enabled : option json_value) : Manual.schedule := {|
  Manual.trigger_time := Some (str "09:00");
  Manual.event_code := Some (str "H1H9");
  Manual.start_time := Some (str "1900");
  Manual.enabled := enabled
|}.

Definition entry (enabled : option bool) : Manual.schedule :=
  entry_with (JBool <$> enabled).

Definition nine_sharp : Manual.tick_input := {|
  Manual.current_time := str "09:00";
  Manual.current_second := 0;
  Manual.globals_now := Manual.initial;
  Manual.saved_now := Ret saved_form
|}.


(** The settings hold the current cookie; [cookie.txt] is left over from an
    earlier login, or absent. *)
Definition files_with (cookie_txt : option pystr) : CookieHealth.files := {|
  CookieHealth.settings_file :=
    Some {| CookieHealth.cookie := Some (str "session_id=CURRENT");
            CookieHealth.other_entries := ∅ |};
  CookieHealth.cookie_txt := cookie_txt
|}.

Definition fresh_scheduler (l : list Manual.schedule) : Manual.scheduler :=
  {| Manual.file := l; Manual.racers := []; Manual.crashed := None |}.

End Samples.

(** ** Schedule handlers of [ManualReserver.py]
    ([/schedule/add], [/schedule/delete]) *)

Module ScheduleHandlers.

(** The JSON body of [/schedule/add]; [None] is a missing key. *)
Record add_request : Type := {
  a_trigger_time : option pystr;
  a_event_code : option pystr;
  a_start_time : option pystr
}.

(** [add_schedule]: the list written back by [save_schedules], or the
    [KeyError] of a missing key (nothing is written then). *)
Definition add_schedule (data : add_request) (file : list Manual.schedule)
  : res (list Manual.schedule) :=
  match a_trigger_time data, a_event_code data, a_start_time data with
  | Some trigger, Some code, Some start =>
      Ret (file ++ [ {| Manual.trigger_time := Some trigger;
                        Manual.event_code := Some code;
                        Manual.start_time := Some start;
                        Manual.enabled := Some (JBool true) |} ])
  | _, _, _ => Raise KeyError
  end.

(** [delete_schedule] with [index = data["index"]]: the file afterwards
    and whether the entry was removed. *)
Definition delete_schedule (index : Z) (file : list Manual.schedule)
  : list Manual.schedule * bool :=
  if (0 <=? index) && (index <? Z.of_nat (length file))
  then (delete (Z.to_nat index) file, true)
  else (file, false).

End ScheduleHandlers.

(** ** [scheduled_tasks.json] and the threads that read and write it

    The trigger loop reads the file at the start of every pass and writes
    it when it starts a racer; [/schedule/add] and [/schedule/delete] read
    it, change their copy and write it back.  Nothing locks the file: a
    pass can fall between the read and the write of a handler, and a
    handler between the read and the write of a pass.  The handlers run
    one at a time, on the event loop. *)

Module ScheduleFile.

Import Manual ScheduleHandlers.

Record world : Type := {
  trigger : scheduler;
  loaded : option (list schedule);  (* [schedules] of the pass under way *)
  copy : option (list schedule)     (* [schedules] of the handler under way *)
}.



(** The process at its start, the file holding [l]. *)
Definition boot (l : list schedule) : world :=
  {| trigger := {| file := l; racers := []; crashed := None |};
     loaded := None;
     copy := None |}.








End ScheduleFile.

(** ** Stopping distance of the two racers *)

Module Stopping.

(** The steps [monitor_task] still takes from a position once the
    running flag is cleared, at most. *)
Definition monitor_distance (l : FullAuto.pc) : nat :=
  match l with
  | FullAuto.Done => 0
  | FullAuto.AtExit => 1
  | FullAuto.AtSuccess2 => 1
  | FullAuto.AtLoop => 2
  | FullAuto.AtSuccess _ => 2
  | FullAuto.AtSleep => 3
  | FullAuto.AtEntry => 3
  | FullAuto.AtPostEnd => 4
  | FullAuto.AtPostLoop _ => 5
  | FullAuto.AtWait _ => 6
  | FullAuto.AtFound _ _ => 6
  | FullAuto.AtPost _ => 7
  | FullAuto.AtGet => 7
  end.

(** The same for [reservation_task]. *)
Definition racer_distance (l : Manual.racer_pc) : nat :=
  match l with
  | Manual.RDone => 0
  | Manual.RCrashed _ => 0
  | Manual.RAtLoop _ _ => 1
  | Manual.RAtSleep _ _ => 2
  | Manual.RAtEntry => 2
  | Manual.RAtBody _ _ => 3
  end.

(** An input of the kind the position reads. *)
Definition input_for (l : FullAuto.pc) (i : FullAuto.input) : Prop :=
  match l, i with
  | FullAuto.AtGet, FullAuto.GetResult _ => True
  | FullAuto.AtFound _ _, FullAuto.Clock _ => True
  | FullAuto.AtPostLoop _, FullAuto.Clock _ => True
  | FullAuto.AtPost _, FullAuto.PostResult _ => True
  | FullAuto.Done, _ => False
  | FullAuto.AtGet, _ => False
  | FullAuto.AtFound _ _, _ => False
  | FullAuto.AtPostLoop _, _ => False
  | FullAuto.AtPost _, _ => False
  | _, FullAuto.NoInput => True
  | _, _ => False
  end.

(** The status codes of a run of responses, counted as the POST loop
    does. *)
Definition count_all (codes : list Z) (g : FullAuto.globals)
  : FullAuto.globals :=
  foldl (fun g code => FullAuto.count_status code g) g codes.

(** How many times [c] stands at the end of [codes]. *)
Fixpoint leading (c : Z) (codes : list Z) : nat :=
  match codes with
  | code :: rest => if code =? c then S (leading c rest) else 0
  | [] => 0
  end.

Definition trailing (c : Z) (codes : list Z) : nat := leading c (rev codes).

(** The POST a thread of [monitor_task] has committed to: one when it
    stands at the request, none elsewhere. *)
Definition posts_due (l : FullAuto.pc) : nat :=
  match l with
  | FullAuto.AtPost _ => 1
  | _ => 0
  end.

(** The attempt numbers of [reservation_task]: the request at position
    [n] of the dispatch order carries the number [n + 1], one POST was sent
    per request, and past the entry [request_count] is the number of
    requests dispatched. *)
Definition numbered (sy : Manual.system) : Prop :=
  (forall n p k,
     Manual.senders sy !! n = Some (Manual.InFlight p k) ->
     k = Z.of_nat n + 1)
  /\ length (filter is_post (Manual.sent sy)) = length (Manual.senders sy)
  /\ match Manual.racer sy with
     | Manual.RAtEntry => Manual.senders sy = []
     | Manual.RCrashed _ => Manual.senders sy = []
     | _ => Manual.request_count (Manual.glob sy)
            = Z.of_nat (length (Manual.senders sy))
     end.

End Stopping.

(** ** Lists typed into the forms *)

Module Forms.

(** [",".join(pieces)] *)
Fixpoint join_comma (pieces : list pystr) : pystr :=
  match pieces with
  | [] => []
  | [piece] => piece
  | piece :: rest => piece ++ 44%N :: join_comma rest
  end.

(** [[t.strip() for t in s.split(",")]], the ticket ids of
    [ManualReserver.py]. *)
Definition stripped_pieces (s : pystr) : list pystr :=
  strip <$> Manual.split_comma s.

(** [[t.strip() for t in s.split(",") if t.strip()]], the pavilion and
    ticket lists of [FullAutoReserver.py]. *)
Definition nonblank_pieces (s : pystr) : list pystr :=
  strip <$> filter (fun piece => strip piece <> []) (Manual.split_comma s).

(** The first and the last character are no blanks. *)
Definition trimmed (s : pystr) : Prop :=
  (forall c, head s = Some c -> isspace_char c = false)
  /\ (forall c, last s = Some c -> isspace_char c = false).

(** The characters ["0"] to ["9"]. *)
Definition ascii_digits : list N :=
  [48; 49; 50; 51; 52; 53; 54; 55; 56; 57]%N.

(** A test passed by every text of four ASCII digits. *)
Definition all_four_digits (test : pystr -> bool) : bool :=
  forallb (fun h1 => forallb (fun h2 => forallb (fun m1 => forallb (fun m2 =>
    test [h1; h2; m1; m2]) ascii_digits) ascii_digits) ascii_digits)
    ascii_digits.

(** Hour and minute digits of a clock time. *)
Definition valid_clock (t : pystr) : Prop :=
  match t with
  | [h1; h2; m1; m2] =>
      (Z.of_N h1 - 48) * 10 + (Z.of_N h2 - 48) <= 23
      /\ (Z.of_N m1 - 48) * 10 + (Z.of_N m2 - 48) <= 59
  | _ => False
  end.

End Forms.

(** ** The offset calibration of [adjustments/adjustments.py] *)

Module Calibration.

(** [ValueError] of [strptime], [OverflowError] of the date arithmetic. *)
Inductive error : Type :=
| BadTime
| OutOfRange.

Inductive outcome (A : Type) : Type :=
| Returns (a : A)
| Raises (e : error).
Arguments Returns {A} a.
Arguments Raises {A} e.

Section Unicode.

Variable unicode_decimal : N -> option Z.

(** [\d] of a pattern over [str]: a decimal digit of Unicode. *)
Definition is_decimal (c : N) : bool :=
  match TimeAdjuster.to_decimal unicode_decimal c with
  | Some _ => true
  | None => false
  end.

(** The alternatives of [(?P<H>2[0-3]|[0-1]\d|\d)], in order, with what
    is left of the text after each. *)
Definition hour_alternatives (text : pystr) : list (pystr * pystr) :=
  match text with
  | c1 :: c2 :: rest =>
      (if (c1 =? 50)%N && (48 <=? c2)%N && (c2 <=? 51)%N
       then [([c1; c2], rest)] else [])
      ++ (if ((c1 =? 48)%N || (c1 =? 49)%N) && is_decimal c2
          then [([c1; c2], rest)] else [])
      ++ (if is_decimal c1 then [([c1], c2 :: rest)] else [])
  | [c1] => if is_decimal c1 then [([c1], [])] else []
  | [] => []
  end.

(** The alternatives of [(?P<M>[0-5]\d|\d)]. *)
Definition minute_alternatives (text : pystr) : list (pystr * pystr) :=
  match text with
  | c1 :: c2 :: rest =>
      (if (48 <=? c1)%N && (c1 <=? 53)%N && is_decimal c2
       then [([c1; c2], rest)] else [])
      ++ (if is_decimal c1 then [([c1], c2 :: rest)] else [])
  | [c1] => if is_decimal c1 then [([c1], [])] else []
  | [] => []
  end.

(** The first match of the two groups, backtracking over the hour. *)
Fixpoint first_match (hours : list (pystr * pystr))
  : option (pystr * pystr * pystr) :=
  match hours with
  | [] => None
  | (hour, text) :: others =>
      match minute_alternatives text with
      | (minute, rest) :: _ => Some (hour, minute, rest)
      | [] => first_match others
      end
  end.

Definition to_outcome {A : Type} (r : res A) : outcome A :=
  match r with
  | Ret a => Returns a
  | Raise _ => Raises BadTime
  end.

(** [datetime.strptime(time_str, "%H%M")]: hour and minute. *)
Definition strptime (time_str : pystr) : outcome (Z * Z) :=
  match first_match (hour_alternatives time_str) with
  | None => Raises BadTime                   (* does not match format *)
  | Some (hour, minute, rest) =>
      match rest with
      | [] =>
          match TimeAdjuster.int unicode_decimal hour,
                TimeAdjuster.int unicode_decimal minute with
          | Ret h, Ret m => Returns (h, m)
          | _, _ => Raises BadTime
          end
      | _ => Raises BadTime                  (* unconverted data remains *)
      end
  end.

(** The test that [strptime] reads four digits as a clock time, hour
    from the first two and minute from the last two, and refuses the
    others. *)
Definition reads_clock_time (t : pystr) : bool :=
  match t with
  | [h1; h2; m1; m2] =>
      let hh := (Z.of_N h1 - 48) * 10 + (Z.of_N h2 - 48) in
      let mm := (Z.of_N m1 - 48) * 10 + (Z.of_N m2 - 48) in
      match strptime t with
      | Returns (h, m) =>
          bool_decide (h = hh /\ m = mm /\ hh <= 23 /\ mm <= 59)
      | Raises BadTime => bool_decide (~ (hh <= 23 /\ mm <= 59))
      | Raises OutOfRange => false
      end
  | _ => false
  end.

(** Minutes from 0001-01-01 00:00 to 1900-01-01 00:00, the date
    [strptime] fills in, and to the end of year 9999. *)
Definition epoch_minutes : Z := 693595 * 1440.
Definition max_minutes : Z := 3652059 * 1440.

(** [adjust_time_str(time_str, offset_minutes)] *)
Definition adjust_time_str (time_str : pystr) (offset_minutes : Z)
  : outcome pystr :=
  match strptime time_str with
  | Raises e => Raises e
  | Returns (hour, minute) =>
      let total := epoch_minutes + hour * 60 + minute - offset_minutes in
      if (0 <=? total) && (total <? max_minutes) then
        Returns (TimeAdjuster.format_02d ((total mod 1440) / 60)
                 ++ TimeAdjuster.format_02d (total mod 60))
      else Raises OutOfRange
  end.

(** What [test_pavilion] returns and the times it posted, in order. *)
Record probe : Type := {
  offset : Z;
  posted : list pystr
}.

(** [res.status_code == 422] inside the [try]; an exception of the POST
    is caught and the loop goes on. *)
Definition answered_422 (r : res Z) : bool :=
  match r with
  | Ret status_code => status_code =? 422
  | Raise _ => false
  end.

(** The loop of [test_pavilion] over the offsets left; [respond] is the
    outcome of the POST made for an offset. *)
Fixpoint try_offsets (base_time : pystr) (respond : Z -> res Z)
    (offsets : list Z) (sent : list pystr) : outcome probe :=
  match offsets with
  | [] => Returns {| offset := 0; posted := sent |}
  | o :: rest =>
      match adjust_time_str base_time o with
      | Raises e => Raises e
      | Returns adjusted_time =>
          let sent := sent ++ [adjusted_time] in
          if answered_422 (respond o)
          then Returns {| offset := - o; posted := sent |}
          else try_offsets base_time respond rest sent
      end
  end.

(** [range(0, 35, 5)] *)
Definition offsets : list Z := [0; 5; 10; 15; 20; 25; 30].

(** [test_pavilion(pavilion_code, base_time)] *)
Definition test_pavilion (base_time : pystr) (respond : Z -> res Z)
  : outcome probe :=
  try_offsets base_time respond offsets [].

(** One element of the ebii data: the code under ["c"] and the ["t"] of
    each slot under ["s"]; [None] is a missing key. *)
Record item : Type := {
  c : option pystr;
  s : list (option pystr)
}.

(** The [for item in data:] loop of [generate_adjustments_from_ebii];
    [respond n] answers the POSTs made for the item at position [n]. *)
Fixpoint collect (items : list item) (n : nat)
    (respond : nat -> Z -> res Z) (adjustments : gmap pystr Z)
  : outcome (gmap pystr Z) :=
  match items with
  | [] => Returns adjustments
  | it :: rest =>
      match default [] (c it), last (s it) with
      | [], _ => collect rest (S n) respond adjustments
      | _, None => collect rest (S n) respond adjustments
      | code, Some slot =>
          match default [] slot with
          | [] => collect rest (S n) respond adjustments
          | base_time =>
              match test_pavilion base_time (respond n) with
              | Raises e => Raises e
              | Returns p =>
                  collect rest (S n) respond (<[code := offset p]> adjustments)
              end
          end
      end
  end.

(** [generate_adjustments_from_ebii()]: the table written to
    [adjustments.json]; the empty table, and no file, when the data cannot
    be fetched. *)
Definition generate_adjustments_from_ebii (data : res (list item))
    (respond : nat -> Z -> res Z) : outcome (gmap pystr Z) :=
  match data with
  | Raise _ => Returns ∅
  | Ret items => collect items 0 respond ∅
  end.

End Unicode.

End Calibration.

(** * Properties *)

(** ** Time Adjuster *)

Section AdjusterFacts.

Import TimeAdjuster.

Variable unicode_digit : N -> option Z.
Variable unicode_decimal : N -> option Z.

Local Abbreviation adjust :=
  (adjust_time_for_post unicode_digit unicode_decimal).

Lemma ascii_digit_value c :
  is_ascii_digit c -> ascii_digit c = Some (Z.of_N c - 48).
Proof.
  intros [Hlo Hhi]. unfold ascii_digit.
  apply N.leb_le in Hlo, Hhi. by rewrite Hlo, Hhi.
Qed.

Lemma to_digit_ascii c :
  is_ascii_digit c -> to_digit unicode_digit c = Some (Z.of_N c - 48).
Proof.
  intros H. unfold to_digit.
  assert ((c <? 128)%N = true) as -> by (apply N.ltb_lt; destruct H; lia).
  by apply ascii_digit_value.
Qed.

Lemma to_decimal_ascii c :
  is_ascii_digit c -> to_decimal unicode_decimal c = Some (Z.of_N c - 48).
Proof.
  intros H. unfold to_decimal.
  assert ((c <? 128)%N = true) as -> by (apply N.ltb_lt; destruct H; lia).
  by apply ascii_digit_value.
Qed.

Lemma to_digit_non_ascii c :
  (128 <= c)%N -> to_digit unicode_digit c = unicode_digit c.
Proof.
  intros H. unfold to_digit.
  by assert ((c <? 128)%N = false) as -> by (apply N.ltb_ge; lia).
Qed.

Lemma to_decimal_non_ascii c :
  (128 <= c)%N -> to_decimal unicode_decimal c = unicode_decimal c.
Proof.
  intros H. unfold to_decimal.
  by assert ((c <? 128)%N = false) as -> by (apply N.ltb_ge; lia).
Qed.

(** Two characters are printed for every number below one hundred. *)
Lemma format_02d_two_digits n :
  0 <= n < 100 ->
  format_02d n = [Z.to_N (48 + n / 10); Z.to_N (48 + n mod 10)].
Proof.
  intros Hn.
  assert (forallb (fun k : nat =>
            bool_decide (format_02d (Z.of_nat k)
                         = [Z.to_N (48 + Z.of_nat k / 10);
                            Z.to_N (48 + Z.of_nat k mod 10)]))
            (seq 0 100) = true) as Hall by (vm_compute; reflexivity).
  rewrite forallb_forall in Hall.
  specialize (Hall (Z.to_nat n)).
  rewrite Z2Nat.id in Hall by lia.
  eapply bool_decide_eq_true_1, Hall, in_seq. lia.
Qed.

(** The guard of [adjust_time_for_post] passes exactly the strings of
    four characters that all have the Digit property. *)
Lemma adjust_rejects adjustments pavilion t :
  isdigit unicode_digit t = false \/ length t <> 4%nat ->
  adjust adjustments pavilion t = Ret t.
Proof.
  intros H. unfold adjust_time_for_post.
  destruct H as [-> | H]; [done |].
  apply Nat.eqb_neq in H. rewrite H. by rewrite orb_true_r.
Qed.

(** A string of ASCII characters that is not made of four digits comes
    back unchanged. *)
Lemma adjust_rejects_ascii adjustments pavilion t :
  Forall (fun c => (c < 128)%N) t ->
  ~ (length t = 4%nat /\ Forall is_ascii_digit t) ->
  adjust adjustments pavilion t = Ret t.
Proof.
  intros Hascii Hbad. apply adjust_rejects.
  destruct (decide (length t = 4%nat)) as [Hlen | Hlen]; [left | by right].
  destruct (isdigit unicode_digit t) eqn:Hd; [exfalso | done].
  apply Hbad. split; [done |].
  destruct t as [| c t]; [done |]. unfold isdigit in Hd.
  rewrite forallb_forall in Hd.
  apply Forall_forall. intros x Hx.
  rewrite Forall_forall in Hascii. specialize (Hascii x Hx).
  apply list_elem_of_In in Hx. specialize (Hd x Hx).
  apply bool_decide_eq_true in Hd. destruct Hd as [d Hd].
  unfold to_digit in Hd.
  apply N.ltb_lt in Hascii. rewrite Hascii in Hd.
  unfold ascii_digit in Hd.
  destruct ((48 <=? x) && (x <=? 57))%N eqn:Hr; [| done].
  apply andb_true_iff in Hr as [H1 H2].
  apply N.leb_le in H1, H2. by split.
Qed.

(** C4: for a time string [t] of four ASCII digits and the offset [o] the
    table holds for the venue (0 when the venue is absent),
    [adjust_time_for_post] returns [(toMinutes t + o) mod 1440] written
    back as zero-padded HHMM: four ASCII digits that read as that number
    of minutes.  With an offset of -10, "1845" gives "1835" and "0005"
    gives "2355". *)
Theorem adjust_time_for_post_minutes
    (adjustments : gmap pystr Z) (pavilion t : pystr) :
  length t = 4%nat ->
  Forall is_ascii_digit t ->
  let o := default 0 (adjustments !! pavilion) in
  let m := (spec_to_minutes t + o) mod 1440 in
  adjust adjustments pavilion t = Ret (spec_hhmm m)
  /\ Forall is_ascii_digit (spec_hhmm m)
  /\ spec_to_minutes (spec_hhmm m) = m
  /\ adjust {[ str "H1H9" := -10 ]} (str "H1H9") (str "1845")
     = Ret (str "1835")
  /\ adjust {[ str "H1H9" := -10 ]} (str "H1H9") (str "0005")
     = Ret (str "2355").
Proof.
  intros Hlen Hdig o m.
  assert (0 <= m < 1440) as Hm by (apply Z.mod_pos_bound; lia).
  assert (0 <= m / 60 < 24) as Hh
    by (split; [apply Z.div_pos; lia | apply Z.div_lt_upper_bound; lia]).
  assert (0 <= m mod 60 < 60) as Hmm by (apply Z.mod_pos_bound; lia).
  split; [| split; [| split; [| split]]].
  - destruct t as [| a [| b [| c [| d [| ? ?]]]]]; try done.
    apply Forall_cons in Hdig as [Ha Hdig].
    apply Forall_cons in Hdig as [Hb Hdig].
    apply Forall_cons in Hdig as [Hc Hdig].
    apply Forall_cons in Hdig as [Hd _].
    unfold adjust_time_for_post, isdigit. cbn [forallb length take drop].
    rewrite !to_digit_ascii by done.
    rewrite !bool_decide_eq_true_2 by eauto.
    cbn [andb negb orb Nat.eqb]. unfold int. cbn [int_from bind].
    rewrite !to_decimal_ascii by done. cbn [bind].
    fold o.
    replace (((0 * 10 + (Z.of_N a - 48)) * 10 + (Z.of_N b - 48)) * 60
             + ((0 * 10 + (Z.of_N c - 48)) * 10 + (Z.of_N d - 48)) + o)
      with (spec_to_minutes [a; b; c; d] + o) by (cbn; lia).
    change (24 * 60) with 1440. fold m.
    rewrite !format_02d_two_digits by lia. done.
  - unfold spec_hhmm, is_ascii_digit.
    assert (0 <= m / 60 / 10 < 10)
      by (split; [apply Z.div_pos; lia | apply Z.div_lt_upper_bound; lia]).
    assert (0 <= m mod 60 / 10 < 10)
      by (split; [apply Z.div_pos; lia | apply Z.div_lt_upper_bound; lia]).
    assert (0 <= (m / 60) mod 10 < 10) by (apply Z.mod_pos_bound; lia).
    assert (0 <= (m mod 60) mod 10 < 10) by (apply Z.mod_pos_bound; lia).
    repeat constructor; lia.
  - unfold spec_hhmm, spec_to_minutes.
    assert (0 <= m / 60 / 10)  by (apply Z.div_pos; lia).
    assert (0 <= m mod 60 / 10) by (apply Z.div_pos; lia).
    assert (0 <= (m / 60) mod 10 < 10) by (apply Z.mod_pos_bound; lia).
    assert (0 <= (m mod 60) mod 10 < 10) by (apply Z.mod_pos_bound; lia).
    rewrite !Z2N.id by lia.
    pose proof (Z.div_mod (m / 60) 10 ltac:(lia)).
    pose proof (Z.div_mod (m mod 60) 10 ltac:(lia)).
    pose proof (Z.div_mod m 60 ltac:(lia)).
    lia.
  - by vm_compute.
  - by vm_compute.
Qed.

(** C5: on four SUPERSCRIPT TWO characters, which have the Digit property
    but are no decimal digits, the guard lets the string through and
    [int] raises [ValueError]; on four FULLWIDTH DIGITs the guard lets the
    string through and the result is the ASCII rendering, not the
    input. *)
Theorem adjust_non_ascii_digits (pavilion : pystr) :
  unicode_digit 0xB2%N = Some 2 ->
  unicode_decimal 0xB2%N = None ->
  (forall c, (0xFF10 <= c <= 0xFF19)%N ->
     unicode_digit c = Some (Z.of_N c - 0xFF10)
     /\ unicode_decimal c = Some (Z.of_N c - 0xFF10)) ->
  adjust ∅ pavilion [0xB2; 0xB2; 0xB2; 0xB2]%N = Raise ValueError
  /\ adjust ∅ pavilion [0xFF11; 0xFF12; 0xFF13; 0xFF14]%N
     = Ret (str "1234").
Proof.
  intros Hdig Hdec Hfull. split.
  - unfold adjust_time_for_post, isdigit. cbn [forallb].
    rewrite !to_digit_non_ascii, Hdig by lia.
    rewrite !bool_decide_eq_true_2 by eauto.
    cbn [andb negb orb length Nat.eqb take drop]. unfold int.
    cbn [int_from bind].
    by rewrite !to_decimal_non_ascii, Hdec by lia.
  - destruct (Hfull 0xFF11%N ltac:(lia)) as [D1 E1].
    destruct (Hfull 0xFF12%N ltac:(lia)) as [D2 E2].
    destruct (Hfull 0xFF13%N ltac:(lia)) as [D3 E3].
    destruct (Hfull 0xFF14%N ltac:(lia)) as [D4 E4].
    unfold adjust_time_for_post, isdigit. cbn [forallb].
    rewrite !to_digit_non_ascii, D1, D2, D3, D4 by lia.
    rewrite !bool_decide_eq_true_2 by eauto.
    cbn [andb negb orb length Nat.eqb take drop]. unfold int.
    cbn [int_from bind].
    rewrite !to_decimal_non_ascii, E1, E2, E3, E4 by lia. cbn [bind].
    rewrite lookup_empty. by vm_compute.
Qed.

End AdjusterFacts.

Lemma adjust_time_for_post_minutes_witness :
  TimeAdjuster.adjust_time_for_post
    TimeAdjuster.excerpt_digit TimeAdjuster.excerpt_decimal
    {[ str "H1H9" := -10 ]} (str "H1H9") (str "1845")
  = Ret (str "1835").
Proof.
  pose proof (adjust_time_for_post_minutes
                TimeAdjuster.excerpt_digit TimeAdjuster.excerpt_decimal
                {[ str "H1H9" := -10 ]} (str "H1H9") (str "1845")) as H.
  destruct H as [H _].
  - reflexivity.
  - repeat constructor; vm_compute; discriminate.
  - rewrite H. by vm_compute.
Defined.

Lemma adjust_non_ascii_digits_witness :
  TimeAdjuster.adjust_time_for_post
    TimeAdjuster.excerpt_digit TimeAdjuster.excerpt_decimal
    ∅ (str "H1H9") [0xB2; 0xB2; 0xB2; 0xB2]%N
  = Raise ValueError.
Proof.
  apply (adjust_non_ascii_digits
           TimeAdjuster.excerpt_digit TimeAdjuster.excerpt_decimal
           (str "H1H9")).
  - reflexivity.
  - reflexivity.
  - intros c Hc. unfold TimeAdjuster.excerpt_digit, TimeAdjuster.excerpt_decimal.
    assert (((0xFF10 <=? c) && (c <=? 0xFF19))%N = true) as ->
      by (apply andb_true_iff; split; apply N.leb_le; lia).
    assert ((c =? 0xB2)%N = false) as -> by (apply N.eqb_neq; lia).
    assert ((c =? 0xB3)%N = false) as -> by (apply N.eqb_neq; lia).
    assert ((c =? 0xB9)%N = false) as -> by (apply N.eqb_neq; lia).
    done.
Defined.

(** ** Cookie Health Monitor and Recovery *)

Section CookieFacts.

Import CookieHealth.








(** When the re-login raises, or leaves no cookie file or a blank one,
    the files are untouched and only the failure message is stored. *)
Lemma relogin_without_output proc now fs c :
  (match proc with Raise _ => True | Ret _ => False end
   \/ cookie_txt fs = None
   \/ exists content, cookie_txt fs = Some content /\ strip content = []) ->
  relogin_and_update_cookie proc now fs c
  = (fs, set_message ReloginFailed c, false).
Proof.
  intros H. unfold relogin_and_update_cookie.
  destruct proc as [code | e]; [| done].
  destruct H as [[] | [-> | (content & -> & ->)]]; done.
Qed.

(** C2: the return code of the re-login process does not decide the
    outcome.  With a non-zero return code and a cookie file that holds a
    non-blank text, [relogin_and_update_cookie] replaces the stored
    credential by that text, marks the cookie valid with the success
    message, and returns [True]. *)
Theorem relogin_overwrites_after_failed_exit
    (returncode : Z) (now : pystr) (fs : files) (c : cookie_status)
    (content : pystr) :
  returncode <> 0 ->
  cookie_txt fs = Some content ->
  strip content <> [] ->
  relogin_and_update_cookie (Ret returncode) now fs c
  = (save_settings {| cookie := Some (strip content);
                      other_entries := other_entries (load_settings fs) |} fs,
     set_result true ReloginSucceeded now c,
     true).
Proof.
  intros _ Hfile Hne. unfold relogin_and_update_cookie. rewrite Hfile.
  by destruct (strip content).
Qed.


End CookieFacts.

Lemma relogin_overwrites_after_failed_exit_witness :
  CookieHealth.settings_file
    (CookieHealth.relogin_and_update_cookie (Ret 1) (str "12:00:00")
       (Samples.files_with (Some (str "session_id=STALE")))
       (CookieHealth.status CookieHealth.initial)).1.1
  = Some {| CookieHealth.cookie := Some (str "session_id=STALE");
            CookieHealth.other_entries := ∅ |}.
Proof.
  rewrite (relogin_overwrites_after_failed_exit 1 (str "12:00:00")
             (Samples.files_with (Some (str "session_id=STALE")))
             (CookieHealth.status CookieHealth.initial)
             (str "session_id=STALE")).
  - reflexivity.
  - lia.
  - reflexivity.
  - vm_compute. discriminate.
Defined.


(** ** Availability Poller and run state of [FullAutoReserver.py] *)

Section PollerFacts.

Import FullAuto.

Variable adjust : pystr -> pystr -> res pystr.

Lemma first_open_none slots :
  first_open slots = None <-> Forall (fun x => s x <= 0) slots.
Proof.
  induction slots as [| sl rest IH]; cbn.
  - split; [constructor | done].
  - destruct (0 <? s sl) eqn:Hs.
    + apply Z.ltb_lt in Hs. split; [done |].
      intros H. apply Forall_cons in H as [H _]. lia.
    + apply Z.ltb_ge in Hs. rewrite IH. split.
      * by constructor.
      * intros H. by apply Forall_cons in H as [_ H].
Qed.

Lemma first_open_some slots start :
  first_open slots = Some start <->
  exists closed sl rest,
    slots = closed ++ sl :: rest
    /\ Forall (fun x => s x <= 0) closed
    /\ 0 < s sl /\ t sl = start.
Proof.
  induction slots as [| sl rest IH]; cbn.
  - split; [done |]. intros (closed & ? & ? & H & _). by destruct closed.
  - destruct (0 <? s sl) eqn:Hs.
    + apply Z.ltb_lt in Hs. split.
      * intros [= <-]. exists [], sl, rest. by repeat split.
      * intros (closed & sl' & rest' & Heq & Hclosed & Hpos & Ht).
        destruct closed as [| c closed]; cbn in Heq.
        -- injection Heq as -> ->. by rewrite Ht.
        -- injection Heq as -> ->.
           apply Forall_cons in Hclosed as [Hc _]. lia.
    + apply Z.ltb_ge in Hs. rewrite IH. split.
      * intros (closed & sl' & rest' & -> & Hclosed & Hpos & Ht).
        exists (sl :: closed), sl', rest'. repeat split; try done.
        by constructor.
      * intros (closed & sl' & rest' & Heq & Hclosed & Hpos & Ht).
        destruct closed as [| c closed]; cbn in Heq.
        -- injection Heq as -> ->. lia.
        -- injection Heq as -> ->.
           apply Forall_cons in Hclosed as [_ Hclosed].
           by exists closed, sl', rest'.
Qed.

(** A venue without an open slot: absent from the snapshot, or every
    count at most zero. *)
Lemma venue_closed (data : availability) (q : pystr) :
  Forall (fun x => s x <= 0) (default [] (data !! q)) <->
  match data !! q with
  | Some slots => first_open slots = None
  | None => True
  end.
Proof.
  destruct (data !! q) as [slots |]; cbn.
  - by rewrite first_open_none.
  - split; [done | constructor].
Qed.

Lemma find_target_some (pavilion_ids : list pystr) (data : availability)
    (pid start : pystr) :
  find_target pavilion_ids data = Some (pid, start) <->
  exists before after slots,
    pavilion_ids = before ++ pid :: after
    /\ Forall (fun q => Forall (fun x => s x <= 0) (default [] (data !! q)))
         before
    /\ data !! pid = Some slots
    /\ first_open slots = Some start.
Proof.
  induction pavilion_ids as [| q ids IH]; cbn.
  - split; [done |]. intros (before & ? & ? & H & _). by destruct before.
  - split.
    + destruct (data !! q) as [slots |] eqn:Hq.
      * destruct (first_open slots) as [st |] eqn:Hopen.
        -- intros [= <- <-]. by exists [], ids, slots.
        -- intros H. apply IH in H as (before & after & sl & -> & Hb & Hd & Ho).
           exists (q :: before), after, sl. repeat split; try done.
           constructor; [| done]. apply venue_closed. by rewrite Hq.
      * intros H. apply IH in H as (before & after & sl & -> & Hb & Hd & Ho).
        exists (q :: before), after, sl. repeat split; try done.
        constructor; [| done]. apply venue_closed. by rewrite Hq.
    + intros (before & after & slots & Heq & Hb & Hd & Ho).
      destruct before as [| b before]; cbn in Heq.
      * injection Heq as -> ->. by rewrite Hd, Ho.
      * injection Heq as -> ->.
        apply Forall_cons in Hb as [Hq Hb].
        apply venue_closed in Hq.
        assert (find_target (before ++ pid :: after) data = Some (pid, start))
          as Hrec by (apply IH; by exists before, after, slots).
        destruct (data !! b) as [sl |]; [by rewrite Hq | done].
Qed.

(** C7: the scan returns the venue [pid] and the time [start] exactly
    when [pid] is the first tracked venue, in the order of the list, that
    has a slot with a positive count, and [start] is the time of the first
    such slot in the order of its slot list; on the snapshot
    [{"H1H9": [{"t":"1845","s":0},{"t":"1900","s":3}]}] with [H1H9]
    tracked it returns "1900"; and the POST loop is entered with the
    adjusted time of the chosen slot as [start_time] of the request. *)
Theorem first_match_wins
    (pavilion_ids : list pystr) (data : availability) (pid start : pystr) :
  (find_target pavilion_ids data = Some (pid, start) <->
   exists before after slots closed sl rest,
     pavilion_ids = before ++ pid :: after
     /\ Forall (fun q => Forall (fun x => s x <= 0) (default [] (data !! q)))
          before
     /\ data !! pid = Some slots
     /\ slots = closed ++ sl :: rest
     /\ Forall (fun x => s x <= 0) closed
     /\ 0 < s sl /\ t sl = start)
  /\ find_target [str "H1H9"]
       {[ str "H1H9" := [ {| t := str "1845"; s := 0 |};
                          {| t := str "1900"; s := 3 |} ] ]}
     = Some (str "H1H9", str "1900")
  /\ (forall a g now adjusted,
        find_target (FullAuto.pavilion_ids a) data = Some (pid, start) ->
        adjust pid start = Ret adjusted ->
        exists g' l,
          run_thread adjust a [GetResult (Ret (200, Ret data)); Clock now]
            g AtGet
          = Some (g', AtPostLoop l, [SentGet])
          /\ p_start_time (request l) = adjusted
          /\ p_event_code (request l) = pid
          /\ current_state g' = Posting).
Proof.
  split; [| split].
  - rewrite find_target_some. split.
    + intros (before & after & slots & Hids & Hb & Hd & Ho).
      apply first_open_some in Ho as (closed & sl & rest & Hs & Hc & Hp & Ht).
      by exists before, after, slots, closed, sl, rest.
    + intros (before & after & slots & closed & sl & rest
              & Hids & Hb & Hd & Hs & Hc & Hp & Ht).
      exists before, after, slots. repeat split; try done.
      apply first_open_some. by exists closed, sl, rest.
  - by vm_compute.
  - intros a g now adjusted Hfind Hadj. unfold run_thread, monitor_step.
    cbn. rewrite Hfind, Hadj. eexists _, _. split; [reflexivity |]. done.
Qed.

(** With [post_duration = 0] the POST loop of [monitor_task] is left at
    its first test: no request is sent, the phase goes back to
    [monitoring] and the status counters are reset. *)
Lemma post_duration_zero_no_post a g p start now now' :
  post_duration a = 0 ->
  (now <= now')%Q ->
  forall adjusted, adjust p start = Ret adjusted ->
  exists g',
    run_thread adjust a [Clock now; Clock now'; NoInput] g (AtFound p start)
    = Some (g', AtSleep, [])
    /\ current_state g' = Monitoring
    /\ last_status_code g' = None /\ status_code_count g' = 0.
Proof.
  intros Hzero Hle adjusted Hadj. unfold run_thread, monitor_step.
  rewrite Hadj, Hzero. cbn.
  assert (Qltb now' (now + inject_Z 0) = false) as ->.
  { unfold Qltb. apply negb_false_iff, Qle_bool_iff.
    rewrite Qplus_0_r. done. }
  rewrite andb_false_r. eexists. split; [reflexivity |]. done.
Qed.

(** *** The run state *)







End PollerFacts.



(** ** Submission Racer *)

Section RacerFacts.

Variable adjust : pystr -> pystr -> res pystr.




Lemma filter_is_post_app (l1 l2 : list effect) :
  filter is_post l2 = [] -> filter is_post (l1 ++ l2) = filter is_post l1.
Proof. intros H. by rewrite filter_app, H, app_nil_r. Qed.



(** With [time_limit = 0] the test [if time_limit and ...] of
    [reservation_task] is never taken, at any clock reading: a racer whose
    flag is set passes the loop test, dispatches a request and goes to
    sleep, as with no limit at all. *)
Lemma zero_time_limit_is_no_limit
    (a : Manual.racer_args) (now now' : Q) (g g' : Manual.globals)
    (p : payload) (start_timestamp : Q) :
  Manual.r_time_limit a = Some 0 ->
  Manual.running g = true ->
  Manual.racer_step adjust a now g (Manual.RAtLoop p start_timestamp)
  = Some (g, Manual.RAtBody p start_timestamp, [], [])
  /\ Manual.racer_step adjust a now' g' (Manual.RAtBody p start_timestamp)
     = Some (Manual.set_request_count (Manual.request_count g' + 1) g',
             Manual.RAtSleep p start_timestamp,
             [Manual.InFlight p (Manual.request_count g' + 1)],
             [SentPost p])
  /\ Manual.limit_reached (Manual.r_time_limit a) now' start_timestamp
     = Manual.limit_reached None now' start_timestamp.
Proof.
  intros Hlimit Hon. cbn. by rewrite Hon, Hlimit.
Qed.

(** C6, amended: the POST loop of [monitor_task] entered with
    [post_duration = 0], on a clock that does not go back, is left at its
    first test: no request is sent and the phase goes back to monitoring
    with the status counters reset.  [reservation_task] is never started
    with a limit of 0: the schedule trigger passes 60 and [/start] passes
    [None].  With the limit 60 the racer, at the first pass of its loop made
    60 seconds or more after its start, clears the flag and returns
    without dispatching; before that it dispatches one request per pass;
    the racer of [/start] dispatches at every pass, whatever the clock. *)
Theorem zero_budget_sends_no_post
    (a : FullAuto.args) (g : FullAuto.globals) (pavilion start adjusted : pystr)
    (now now' : Q) :
  FullAuto.post_duration a = 0 ->
  (now <= now')%Q ->
  adjust pavilion start = Ret adjusted ->
  (exists g',
      FullAuto.run_thread adjust a
        [FullAuto.Clock now; FullAuto.Clock now'; FullAuto.NoInput]
        g (FullAuto.AtFound pavilion start)
      = Some (g', FullAuto.AtSleep, [])
      /\ FullAuto.current_state g' = FullAuto.Monitoring
      /\ FullAuto.last_status_code g' = None
      /\ FullAuto.status_code_count g' = 0)
  /\ (forall saved e,
        Manual.r_time_limit (Manual.racer_for saved e) = Some 60)
  /\ (forall f g0 g1 f' ra,
        Manual.start f g0 = (g1, Some (f', ra)) ->
        Manual.r_time_limit ra = None)
  /\ (forall ra clock g0 p0 start_timestamp,
        Manual.r_time_limit ra = Some 60 ->
        Manual.racer_step adjust ra clock g0 (Manual.RAtBody p0 start_timestamp)
        = if Qle_bool 60 (clock - start_timestamp)
          then Some (Manual.set_running false g0, Manual.RDone, [], [])
          else Some (Manual.set_request_count (Manual.request_count g0 + 1) g0,
                     Manual.RAtSleep p0 start_timestamp,
                     [Manual.InFlight p0 (Manual.request_count g0 + 1)],
                     [SentPost p0]))
  /\ (forall ra clock g0 p0 start_timestamp,
        Manual.r_time_limit ra = None ->
        Manual.racer_step adjust ra clock g0 (Manual.RAtBody p0 start_timestamp)
        = Some (Manual.set_request_count (Manual.request_count g0 + 1) g0,
                Manual.RAtSleep p0 start_timestamp,
                [Manual.InFlight p0 (Manual.request_count g0 + 1)],
                [SentPost p0])).
Proof.
  intros Hzero Hle Hadj.
  split; [by eapply post_duration_zero_no_post |].
  split; [done |]. split; [| split].
  - intros f g0 g1 f' ra. unfold Manual.start.
    destruct (Manual.running g0); [done |]. by intros [= _ _ <-].
  - intros ra clock g0 p0 ts Hlimit. cbn. rewrite Hlimit. cbn.
    change (inject_Z 60) with 60%Q.
    by destruct (Qle_bool 60 (clock - ts)).
  - intros ra clock g0 p0 ts Hlimit. cbn. by rewrite Hlimit.
Qed.

End RacerFacts.



Lemma zero_budget_sends_no_post_witness :
  exists g',
    FullAuto.run_thread Samples.adjust Samples.no_duration_args
      [FullAuto.Clock 5%Q; FullAuto.Clock 5%Q; FullAuto.NoInput]
      FullAuto.initial (FullAuto.AtFound (str "H1H9") (str "1900"))
    = Some (g', FullAuto.AtSleep, []).
Proof.
  destruct (zero_budget_sends_no_post Samples.adjust Samples.no_duration_args
              FullAuto.initial (str "H1H9") (str "1900") (str "1900")
              5%Q 5%Q) as [(g' & Hrun & _) _].
  - reflexivity.
  - apply Qle_refl.
  - reflexivity.
  - by exists g'.
Defined.

(** C6 as stated fails for [reservation_task]: called with
    [time_limit = 0] and the flag set, the racer does not return at once;
    1000 seconds after its start it still dispatches a request. *)
Lemma zero_time_limit_dispatches :
  ~ (forall adjust a now g p start_timestamp,
       Manual.r_time_limit a = Some 0 ->
       Manual.running g = true ->
       exists g',
         Manual.racer_step adjust a now g (Manual.RAtBody p start_timestamp)
         = Some (g', Manual.RDone, [], [])).
Proof.
  intros H.
  destruct (H Samples.adjust (Samples.racer_args (Some 0)) 1000%Q
              Samples.busy Samples.request 0%Q eq_refl eq_refl) as [g' Hstep].
  discriminate Hstep.
Qed.

(** ** Schedule Trigger *)

Section ScheduleFacts.

Import Manual.

Variable saved : res form_data.
Variable now_time : pystr.
Variable now_second : Z.

Lemma skipped_iff e :
  skipped e = true <-> exists v, enabled e = Some v /\ truthy v = false.
Proof.
  unfold skipped. destruct (enabled e) as [v |]; cbn.
  - rewrite negb_true_iff. split; [intros H; by exists v |].
    by intros (? & [= <-] & ?).
  - split; [done |]. by intros (? & ? & _).
Qed.

Lemma falsy_values v :
  truthy v = false <->
  v = JNull \/ v = JBool false \/ v = JInt 0
  \/ (exists q, v = JFloat (Finite q) /\ (q == 0)%Q)
  \/ v = JString [] \/ v = JArray [] \/ v = JObject [].
Proof.
  split.
  - destruct v as [| [|] | n | [q | |] | [| ? ?] | [| ? ?] | [| ? ?]];
      cbn; try done; intros H; auto 10.
    + apply negb_false_iff, Z.eqb_eq in H as ->. auto.
    + apply negb_false_iff, Qeq_bool_iff in H. eauto 10.
  - intros [-> | [-> | [-> | [(q & -> & Hq) | [-> | [-> | ->]]]]]]; try done.
    cbn. by apply negb_false_iff, Qeq_bool_iff.
Qed.

Lemma monitor_entry_fires idx e st c :
  skipped e = false ->
  due now_time now_second (tglob st) e = true ->
  event_code e = Some c ->
  monitor_entry saved now_time now_second idx e st = fire saved idx e st.
Proof.
  intros Hs Hd Hc. unfold monitor_entry. by rewrite Hs, Hd, Hc.
Qed.

Lemma monitor_entry_idle idx e st :
  idle_entry now_time now_second (tglob st) e ->
  monitor_entry saved now_time now_second idx e st = (st, None).
Proof.
  intros [Hs | Hd]; unfold monitor_entry.
  - by rewrite Hs.
  - rewrite Hd. by destruct (skipped e).
Qed.

Lemma monitor_entry_cases idx e st :
  monitor_entry saved now_time now_second idx e st = (st, None)
  \/ monitor_entry saved now_time now_second idx e st = (st, Some KeyError)
  \/ (skipped e = false
      /\ due now_time now_second (tglob st) e = true
      /\ monitor_entry saved now_time now_second idx e st
         = fire saved idx e st).
Proof.
  unfold monitor_entry. destruct (skipped e); [by left |].
  destruct (due _ _ _ _); [| by left].
  destruct (event_code e); [| by right; left]. by right; right.
Qed.

Lemma fire_sets_running idx e st :
  running (tglob (fire saved idx e st).1) = true.
Proof. unfold fire. by destruct saved. Qed.

Lemma fired_app j l x :
  fired j (l ++ [x]) = (fired j l + (if decide (x.1 = j) then 1 else 0))%nat.
Proof.
  unfold fired. rewrite filter_app, length_app. f_equal.
  rewrite filter_cons. by destruct (decide (x.1 = j)).
Qed.


(** Entries that cannot fire are passed over. *)
Lemma monitor_entries_idle_prefix before : forall idx rest st,
  Forall (idle_entry now_time now_second (tglob st)) before ->
  monitor_entries saved now_time now_second idx (before ++ rest) st
  = monitor_entries saved now_time now_second (idx + length before) rest st.
Proof.
  induction before as [| e before IH]; intros idx rest st Hidle; cbn.
  - by rewrite Nat.add_0_r.
  - apply Forall_cons in Hidle as [He Hidle].
    rewrite monitor_entry_idle by done.
    rewrite IH by done. f_equal. lia.
Qed.

(** With the flag set, or off the full minute, the loop passes over every
    entry. *)
Lemma monitor_entries_blocked todo idx st :
  now_second <> 0 \/ running (tglob st) = true ->
  monitor_entries saved now_time now_second idx todo st = (st, None).
Proof.
  intros Hblock.
  rewrite <- (app_nil_r todo), monitor_entries_idle_prefix; [done |].
  apply Forall_forall. intros e _. right. unfold due.
  destruct Hblock as [Hsec | Hrun].
  - apply Z.eqb_neq in Hsec. rewrite Hsec.
    by rewrite andb_false_r.
  - rewrite Hrun. by rewrite andb_false_r.
Qed.

(** The [for] loop from [idx] on does one of three things: nothing; it
    ends on the [KeyError] of an entry without event code, with nothing
    changed; or it takes the firing branch for exactly one entry, which was
    due and not switched off, and passes over the rest. *)
Lemma monitor_entries_cases todo : forall idx st,
  drop idx (schedules st) = todo ->
  monitor_entries saved now_time now_second idx todo st = (st, None)
  \/ monitor_entries saved now_time now_second idx todo st
     = (st, Some KeyError)
  \/ exists j e,
       (idx <= j)%nat
       /\ schedules st !! j = Some e
       /\ skipped e = false
       /\ due now_time now_second (tglob st) e = true
       /\ monitor_entries saved now_time now_second idx todo st
          = fire saved j e st.
Proof.
  induction todo as [| e rest IH]; intros idx st Hdrop; [by left |].
  assert (schedules st !! idx = Some e) as Hidx.
  { rewrite <- (Nat.add_0_r idx), <- lookup_drop, Hdrop. done. }
  assert (drop (S idx) (schedules st) = rest) as Hrest.
  { rewrite <- (Nat.add_1_r idx), <- drop_drop, Hdrop. done. }
  cbn [monitor_entries].
  destruct (monitor_entry_cases idx e st) as [-> | [-> | (Hon & Hdue & ->)]].
  - destruct (IH (S idx) st Hrest) as [-> | [-> | (j & e' & ? & ? & ? & ? & ->)]].
    + by left.
    + by right; left.
    + right; right. exists j, e'. repeat split; done || lia.
  - by right; left.
  - right; right. exists idx, e. repeat split; try done.
    unfold fire. destruct saved as [form | err] eqn:Hsaved; cbn beta iota;
      [| done].
    rewrite <- Hsaved. by rewrite monitor_entries_blocked by (by right).
Qed.

End ScheduleFacts.

Section SchedulerFacts.

Import Manual ScheduleHandlers ScheduleFile.

(** One pass over the list [l]: it starts nothing and writes nothing,
    ending normally, on a missing event code or on the exception of the
    saved form; or it starts the racer of one entry, which was due and not
    switched off, and writes [l] back with that entry switched off. *)
Lemma schedule_pass_cases i l sc :
  (exists x,
      schedule_pass i l sc
      = ({| file := file sc; racers := racers sc; crashed := x |},
         globals_now i)
      /\ (x = None \/ x = Some KeyError))
  \/ exists j e,
       l !! j = Some e
       /\ skipped e = false
       /\ due (current_time i) (current_second i) (globals_now i) e = true
       /\ running (schedule_pass i l sc).2 = true
       /\ match saved_now i with
          | Ret form =>
              (schedule_pass i l sc).1
              = {| file := <[j := disable e]> l;
                   racers := racers sc ++ [(j, racer_for form e)];
                   crashed := None |}
          | Raise x =>
              (schedule_pass i l sc).1
              = {| file := file sc; racers := racers sc; crashed := Some x |}
          end.
Proof.
  unfold schedule_pass.
  set (st := {| tglob := globals_now i; schedules := l;
                schedule_file := file sc; started := racers sc |}).
  destruct (monitor_entries_cases (saved_now i) (current_time i)
              (current_second i) l 0 st eq_refl)
    as [-> | [-> | (j & e & _ & Hj & Hon & Hdue & ->)]].
  - left. exists None. split; [done | by left].
  - left. exists (Some KeyError). split; [done | by right].
  - right. exists j, e. unfold fire.
    destruct (saved_now i) as [form | err]; by repeat split.
Qed.

Lemma fired_snoc_other j j' a l :
  j' <> j -> fired j (l ++ [(j', a)]) = fired j l.
Proof.
  intros Hne. rewrite fired_app. cbn. rewrite decide_False by done. lia.
Qed.

Lemma fired_snoc_same j a l : fired j (l ++ [(j, a)]) = S (fired j l).
Proof. rewrite fired_app. cbn. rewrite decide_True by done. lia. Qed.






(** C10, amended: an entry without the [enabled] key is not skipped: the
    loop treats it like the same entry with [enabled] true, and when it is
    due, with an event code and a saved form that can be read, its racer
    is started.  The entries that the loop skips are those whose [enabled]
    is present and false in Python's sense: [false], and also [null], [0],
    [0.0], the empty text, the empty list and the empty object; such an
    entry leaves the state as it is. *)
Theorem missing_enabled_means_enabled
    (saved : res form_data) (now_time : pystr) (now_second : Z) (idx : nat)
    (e : schedule) (st : tick_state) :
  enabled e = None ->
  skipped e = false
  /\ monitor_entry saved now_time now_second idx e st
     = monitor_entry saved now_time now_second idx
         {| trigger_time := trigger_time e; event_code := event_code e;
            start_time := start_time e; enabled := Some (JBool true) |} st
  /\ (forall c form,
        due now_time now_second (tglob st) e = true ->
        event_code e = Some c ->
        saved = Ret form ->
        exists st',
          monitor_entry saved now_time now_second idx e st = (st', None)
          /\ started st' = started st ++ [(idx, racer_for form e)]
          /\ schedule_file st' = <[idx := disable e]> (schedules st))
  /\ (forall e',
        skipped e' = true <->
        exists v, enabled e' = Some v /\ truthy v = false)
  /\ (forall v,
        truthy v = false <->
        v = JNull \/ v = JBool false \/ v = JInt 0
        \/ (exists q, v = JFloat (Finite q) /\ (q == 0)%Q)
        \/ v = JString [] \/ v = JArray [] \/ v = JObject [])
  /\ (forall e',
        skipped e' = true ->
        monitor_entry saved now_time now_second idx e' st = (st, None)).
Proof.
  intros Hmissing.
  assert (skipped e = false) as Hon by (unfold skipped; by rewrite Hmissing).
  split; [done |]. split; [| split; [| split; [| split]]].
  - unfold monitor_entry, skipped. rewrite Hmissing. cbn.
    unfold due, fire, racer_for, disable. cbn. done.
  - intros c form Hdue Hcode ->.
    rewrite (monitor_entry_fires _ _ _ _ _ _ c) by done.
    eexists. by split.
  - apply skipped_iff.
  - apply falsy_values.
  - intros e' Hoff. apply monitor_entry_idle. by left.
Qed.

End SchedulerFacts.



Lemma missing_enabled_means_enabled_witness :
  Manual.skipped (Samples.entry None) = false.
Proof.
  apply (missing_enabled_means_enabled (Ret Samples.saved_form)
           (str "09:00") 0 0 (Samples.entry None)
           {| Manual.tglob := Manual.initial;
              Manual.schedules := [Samples.entry None];
              Manual.schedule_file := [Samples.entry None];
              Manual.started := [] |}).
  reflexivity.
Defined.

(** C10 as stated fails: an entry whose [enabled] is [null] is skipped,
    though its field is not explicitly false; at its trigger time, with no
    racer running, the loop passes over it. *)
Lemma null_enabled_is_skipped :
  ~ (forall e,
       Manual.skipped e = true -> Manual.enabled e = Some (JBool false)).
Proof.
  intros H. specialize (H (Samples.entry_with (Some JNull)) eq_refl).
  discriminate H.
Qed.

(** * Further properties *)

(** ** Schedule handlers and trigger loop *)

Section ScheduleHandlerFacts.

Import Manual ScheduleHandlers.

(** X1: an entry added by [/schedule/add] goes to the end of the list
    with [enabled] true and the three fields of the request, the entries
    before it keep their positions, and deleting the index it received
    gives back the list as it was. *)
Theorem add_then_delete_restores
    (data : add_request) (file file' : list schedule) :
  add_schedule data file = Ret file' ->
  delete_schedule (Z.of_nat (length file)) file' = (file, true)
  /\ length file' = S (length file)
  /\ (forall j e, file !! j = Some e -> file' !! j = Some e)
  /\ (exists e, file' !! length file = Some e
                /\ skipped e = false
                /\ trigger_time e = a_trigger_time data
                /\ event_code e = a_event_code data
                /\ start_time e = a_start_time data).
Proof.
  unfold add_schedule.
  destruct (a_trigger_time data) as [tr |] eqn:Htr; [| done].
  destruct (a_event_code data) as [code |] eqn:Hcode; [| done].
  destruct (a_start_time data) as [st |] eqn:Hst; [| done].
  intros [= <-]. split; [| split; [| split]].
  - unfold delete_schedule. rewrite length_app. cbn [length].
    assert ((0 <=? Z.of_nat (length file))
            && (Z.of_nat (length file) <? Z.of_nat (length file + 1)) = true)
      as -> by (apply andb_true_iff; split; [apply Z.leb_le | apply Z.ltb_lt]; lia).
    rewrite Nat2Z.id, delete_middle. by rewrite app_nil_r.
  - rewrite length_app. cbn. lia.
  - intros j e Hj. by apply lookup_app_l_Some.
  - eexists. split.
    + rewrite lookup_app_r by lia. by rewrite Nat.sub_diag.
    + done.
Qed.

(** X2: [/schedule/delete] removes an entry exactly when the index lies
    within the list; then the entries before it stay and the ones after it
    move down by one position; with any other index the list is left as it
    is. *)
Theorem delete_schedule_shifts (index : Z) (file : list schedule) :
  ((delete_schedule index file).2 = true <->
   0 <= index < Z.of_nat (length file))
  /\ ((delete_schedule index file).2 = false ->
      (delete_schedule index file).1 = file)
  /\ ((delete_schedule index file).2 = true ->
      S (length (delete_schedule index file).1) = length file
      /\ forall j,
           ((j < Z.to_nat index)%nat ->
            (delete_schedule index file).1 !! j = file !! j)
           /\ ((Z.to_nat index <= j)%nat ->
               (delete_schedule index file).1 !! j = file !! S j)).
Proof.
  unfold delete_schedule.
  destruct ((0 <=? index) && (index <? Z.of_nat (length file))) eqn:Hin; cbn.
  - apply andb_true_iff in Hin as [H1 H2].
    apply Z.leb_le in H1. apply Z.ltb_lt in H2.
    split; [done |]. split; [done |]. intros _. split.
    + rewrite length_delete by (apply lookup_lt_is_Some; lia). lia.
    + intros j. split; intros Hj.
      * by apply list_lookup_delete_lt.
      * by apply list_lookup_delete_ge.
  - split; [| by split].
    split; [done |]. intros [H1 H2].
    apply Z.leb_le in H1. apply Z.ltb_lt in H2.
    by rewrite H1, H2 in Hin.
Qed.

End ScheduleHandlerFacts.

Lemma add_then_delete_restores_witness :
  ScheduleHandlers.delete_schedule 1
    [Samples.entry (Some false); Samples.entry (Some true)]
  = ([Samples.entry (Some false)], true).
Proof.
  apply (add_then_delete_restores
           {| ScheduleHandlers.a_trigger_time := Some (str "09:00");
              ScheduleHandlers.a_event_code := Some (str "H1H9");
              ScheduleHandlers.a_start_time := Some (str "1900") |}
           [Samples.entry (Some false)]
           [Samples.entry (Some false); Samples.entry (Some true)]).
  reflexivity.
Defined.

Section TickTheorems.

Import Manual.



(** X5: a tick keeps the length of the schedule file and changes an
    entry in one way only: the entry for which it starts a racer, which was
    not switched off, is written back with [enabled] false and its other
    fields as they were; every other entry is written back as it was and
    no racer is started for it. *)
Theorem tick_only_switches_off
    (i : tick_input) (sc : scheduler) (j : nat) (e : schedule) :
  file sc !! j = Some e ->
  length (file (schedule_tick i sc).1) = length (file sc)
  /\ ((file (schedule_tick i sc).1 !! j = Some e
       /\ fired j (racers (schedule_tick i sc).1) = fired j (racers sc))
      \/ (file (schedule_tick i sc).1 !! j = Some (disable e)
          /\ fired j (racers (schedule_tick i sc).1)
             = S (fired j (racers sc))
          /\ skipped e = false)).
Proof.
  intros Hj. unfold schedule_tick.
  destruct (schedule_pass_cases i (file sc) sc)
    as [(x & -> & _) | (j' & e' & Hj' & Hon & _ & _ & Hcase)].
  - cbn. split; [done | by left].
  - destruct (saved_now i) as [form | err]; rewrite Hcase;
      cbn [file racers]; [| split; [done | by left]].
    split; [by rewrite length_insert |].
    destruct (decide (j' = j)) as [-> | Hne].
    + right. rewrite Hj in Hj'. injection Hj' as <-.
      rewrite list_lookup_insert_eq by (by eapply lookup_lt_Some).
      by rewrite fired_snoc_same.
    + left. rewrite list_lookup_insert_ne by done.
      by rewrite fired_snoc_other.
Qed.

End TickTheorems.


Lemma tick_only_switches_off_witness :
  length (Manual.file
            (Manual.schedule_tick Samples.nine_sharp
               (Samples.fresh_scheduler [Samples.entry (Some true)])).1)
  = 1%nat.
Proof.
  apply (tick_only_switches_off Samples.nine_sharp
           (Samples.fresh_scheduler [Samples.entry (Some true)]) 0
           (Samples.entry (Some true))).
  reflexivity.
Defined.

(** ** The racer of [reservation_task] *)

Section RacerExtraFacts.

Import Manual Stopping.

Variable adjust : pystr -> pystr -> res pystr.

Lemma send_single_request_effects webhook p r g :
  filter is_post (send_single_request webhook p r g).2 = []
  /\ request_count (send_single_request webhook p r g).1 = request_count g.
Proof.
  unfold send_single_request. destruct r as [r |]; [| done].
  assert (request_count (count_status (status_code r) g) = request_count g)
    as Hcount by (unfold count_status; by destruct (bool_decide _)).
  destruct (is_success r) as [[|] |]; cbn; try done.
  split; [by destruct webhook | done].
Qed.

Lemma numbered_step a act sy sy' :
  numbered sy -> sys_step adjust a act sy = Some sy' -> numbered sy'.
Proof.
  intros (Hnum & Hposts & Hcount) Hstep.
  destruct act as [now | n r]; cbn in Hstep.
  - revert Hcount Hstep. unfold racer_step.
    destruct (racer sy) as [| p st | p st | p st | | e]; intros Hcount Hstep;
      try done.
    + rewrite Hcount in *.
      destruct (adjust _ _); injection Hstep as <-;
        unfold numbered; cbn; rewrite ?app_nil_r; repeat split; done.
    + destruct (running (glob sy)); injection Hstep as <-;
        unfold numbered; cbn; rewrite ?app_nil_r; repeat split; done.
    + destruct (limit_reached _ _ _); injection Hstep as <-;
        unfold numbered; cbn.
      * rewrite !app_nil_r. repeat split; done.
      * split; [| split].
        -- intros n q k Hn.
           destruct (decide (n < length (senders sy))%nat) as [Hlt | Hge].
           ++ rewrite lookup_app_l in Hn by done. by eapply Hnum.
           ++ rewrite lookup_app_r in Hn by lia.
              destruct (n - length (senders sy))%nat eqn:Hd; [| done].
              injection Hn as <- <-. lia.
        -- rewrite filter_app, !length_app.
           change (filter is_post [SentPost p]) with [SentPost p].
           cbn [length]. lia.
        -- rewrite length_app. cbn [length]. lia.
    + injection Hstep as <-. unfold numbered. cbn. rewrite !app_nil_r.
      repeat split; done.
  - destruct (senders sy !! n) as [[p k |] |] eqn:Hn; try done.
    pose proof (send_single_request_effects (r_webhook_url a) p r (glob sy))
      as [Hout Hrc].
    destruct (send_single_request _ _ _ _) as [g out].
    injection Hstep as <-. unfold numbered. cbn in *. split; [| split].
    + intros m q j Hm. destruct (decide (m = n)) as [-> | Hne].
      * rewrite list_lookup_insert_eq in Hm by (by eapply lookup_lt_Some).
        done.
      * rewrite list_lookup_insert_ne in Hm by done. by eapply Hnum.
    + by rewrite length_insert, filter_is_post_app.
    + rewrite length_insert.
      destruct (racer sy); try done;
        try (rewrite Hrc; done);
        try (destruct (senders sy); [done | discriminate Hcount]).
Qed.

(** X6: in every run of [reservation_task] with the requests it
    dispatches, the request at position [n] of the dispatch order carries
    the attempt number [n + 1], exactly one POST was sent per dispatched
    request, and once the loop is entered [request_count] equals the number
    of requests dispatched, whatever responses have arrived. *)
Theorem attempts_are_numbered
    (a : racer_args) (g : globals) (acts : list action) (sy : system) :
  sys_run adjust a acts
    {| glob := g; racer := RAtEntry; senders := []; sent := [] |}
  = Some sy ->
  numbered sy.
Proof.
  assert (forall acts sy0 sy1,
            numbered sy0 -> sys_run adjust a acts sy0 = Some sy1 ->
            numbered sy1) as Hrun.
  { clear acts sy. induction acts as [| act rest IH]; intros sy0 sy1 Hn Hr.
    - by injection Hr as <-.
    - cbn in Hr. destruct (sys_step adjust a act sy0) as [sy2 |] eqn:Hs;
        [| done].
      eapply IH; [| done]. by eapply numbered_step. }
  apply Hrun. by repeat split.
Qed.

(** X7: a racer started without a time limit, or with the limit 0, never
    changes the running flag: it stops only when something else clears
    it. *)
Theorem unlimited_racer_keeps_flag
    (a : racer_args) (now : Q) (g g' : globals) (l l' : racer_pc)
    (new : list sender_pc) (out : list effect) :
  r_time_limit a = None \/ r_time_limit a = Some 0 ->
  racer_step adjust a now g l = Some (g', l', new, out) ->
  running g' = running g.
Proof.
  intros Hlimit Hstep.
  assert (forall st, limit_reached (r_time_limit a) now st = false) as Hno
    by (intros st; destruct Hlimit as [-> | ->]; reflexivity).
  destruct l; cbn in Hstep; try done.
  - destruct (adjust _ _); by injection Hstep as <- <- <- <-.
  - destruct (running g) eqn:Hg; by injection Hstep as <- <- <- <-.
  - rewrite Hno in Hstep. by injection Hstep as <- <- <- <-.
  - by injection Hstep as <- <- <- <-.
Qed.

(** X8: once the running flag is cleared, each step of
    [reservation_task] takes the thread closer to its end, which it reaches
    within three steps, and the flag stays cleared; the thread can take a
    step at every position but the final ones. *)
Theorem cleared_flag_ends_racer
    (a : racer_args) (now : Q) (g : globals) (l : racer_pc) :
  running g = false ->
  (racer_distance l <= 3)%nat
  /\ match racer_step adjust a now g l with
     | Some (g', l', _, _) =>
         running g' = false /\ (racer_distance l' < racer_distance l)%nat
     | None => racer_distance l = 0%nat
     end.
Proof.
  intros Hoff. split; [destruct l; cbn; lia |].
  destruct l; cbn; try done.
  - destruct (adjust _ _); cbn; split; done || lia.
  - rewrite Hoff. cbn. split; done || lia.
  - destruct (limit_reached _ _ _); cbn; split; done || lia.
  - split; done || lia.
Qed.

End RacerExtraFacts.

Lemma attempts_are_numbered_witness :
  Stopping.numbered
    {| Manual.glob := Manual.set_request_count 1 Samples.busy;
       Manual.racer := Manual.RAtSleep Samples.request 0%Q;
       Manual.senders := [Manual.InFlight Samples.request 1];
       Manual.sent := [SentPost Samples.request] |}.
Proof.
  apply (attempts_are_numbered Samples.adjust
           (Samples.racer_args None) Samples.busy
           [Manual.RacerStep 0%Q; Manual.RacerStep 0%Q; Manual.RacerStep 0%Q]).
  reflexivity.
Defined.

Lemma unlimited_racer_keeps_flag_witness :
  Manual.running (Manual.set_request_count 1 Samples.busy)
  = Manual.running Samples.busy.
Proof.
  apply (unlimited_racer_keeps_flag Samples.adjust
           (Samples.racer_args None) 1000%Q Samples.busy
           (Manual.set_request_count 1 Samples.busy)
           (Manual.RAtBody Samples.request 0%Q)
           (Manual.RAtSleep Samples.request 0%Q)
           [Manual.InFlight Samples.request 1] [SentPost Samples.request]).
  - by left.
  - reflexivity.
Defined.

Lemma cleared_flag_ends_racer_witness :
  (Stopping.racer_distance (Manual.RAtSleep Samples.request 0%Q) <= 3)%nat.
Proof.
  apply (cleared_flag_ends_racer Samples.adjust (Samples.racer_args None)
           0%Q Manual.initial (Manual.RAtSleep Samples.request 0%Q)).
  reflexivity.
Defined.

(** ** The monitor thread of [monitor_task] *)

Section MonitorExtraFacts.

Import FullAuto Stopping.

Variable adjust : pystr -> pystr -> res pystr.

Lemma monitor_step_cleared a i g l g' l' out :
  running g = false ->
  monitor_step adjust a i g l = Some (g', l', out) ->
  running g' = false
  /\ (monitor_distance l' < monitor_distance l)%nat
  /\ (length (filter is_post out) + posts_due l' <= posts_due l)%nat.
Proof.
  intros Hoff Hstep.
  destruct l, i; cbn in Hstep; try done;
    rewrite ?Hoff in Hstep; cbn in Hstep;
    repeat (match type of Hstep with
            | context [match ?x with _ => _ end] => destruct x eqn:?
            end; try done);
    injection Hstep as <- <- <-; cbn;
    rewrite ?Hoff; repeat split; try done; try lia;
    unfold count_status; by destruct (bool_decide _).
Qed.

Lemma monitor_step_progress a i g l :
  input_for l i -> is_Some (monitor_step adjust a i g l).
Proof.
  intros Hin. destruct l, i; cbn in Hin; try done; cbn;
    repeat (match goal with
            | |- context [match ?x with _ => _ end] => destruct x
            end); eauto.
Qed.

(** X9: once the running flag is cleared and nothing sets it again, a
    thread of [monitor_task] ends within seven steps from any position: each
    step brings it closer to its return and leaves the flag cleared, it
    sends at most the one POST it was already making, and it is never
    stuck, as it can take a step on any input of the kind its position
    reads. *)
Theorem cleared_flag_ends_monitor
    (a : args) (inputs : list input) (g g' : globals) (l l' : pc)
    (out : list effect) :
  running g = false ->
  run_thread adjust a inputs g l = Some (g', l', out) ->
  running g' = false
  /\ (length inputs + monitor_distance l' <= monitor_distance l)%nat
  /\ (monitor_distance l <= 7)%nat
  /\ (length (filter is_post out) + posts_due l' <= posts_due l)%nat
  /\ (forall i, input_for l' i -> is_Some (monitor_step adjust a i g' l')).
Proof.
  intros Hoff Hrun.
  assert (running g' = false
          /\ (length inputs + monitor_distance l' <= monitor_distance l)%nat
          /\ (length (filter is_post out) + posts_due l' <= posts_due l)%nat)
    as (H1 & H2 & H3).
  { revert g l out Hoff Hrun.
    induction inputs as [| i rest IH]; intros g l out Hoff Hrun.
    - injection Hrun as <- <- <-. cbn. repeat split; done || lia.
    - cbn in Hrun.
      destruct (monitor_step adjust a i g l) as [[[g1 l1] out1] |] eqn:Hstep;
        [| done].
      destruct (run_thread adjust a rest g1 l1) as [[[g2 l2] out2] |] eqn:Hrest;
        [| done].
      injection Hrun as <- <- <-.
      destruct (monitor_step_cleared _ _ _ _ _ _ _ Hoff Hstep)
        as (Hoff1 & Hd1 & Hp1).
      destruct (IH g1 l1 out2 Hoff1 Hrest) as (Hoff2 & Hd2 & Hp2).
      rewrite filter_app, length_app. cbn [length].
      repeat split; done || lia. }
  repeat split; try done.
  - destruct l; cbn; lia.
  - intros i. apply monitor_step_progress.
Qed.

Lemma count_all_snoc codes code g :
  count_all (codes ++ [code]) g = count_status code (count_all codes g).
Proof. unfold count_all. by rewrite foldl_app. Qed.

Lemma trailing_snoc c code codes :
  trailing c (codes ++ [code])
  = if code =? c then S (trailing c codes) else 0%nat.
Proof. unfold trailing. by rewrite rev_app_distr. Qed.

Lemma count_all_last codes : forall g,
  last_status_code g = None ->
  codes <> [] ->
  exists c,
    last codes = Some c
    /\ last_status_code (count_all codes g) = Some c
    /\ status_code_count (count_all codes g) = Z.of_nat (trailing c codes).
Proof.
  induction codes as [| code codes IH] using rev_ind; intros g Hnone Hne;
    [done |].
  exists code. rewrite last_snoc, count_all_snoc, trailing_snoc, Z.eqb_refl.
  split; [done |].
  destruct (decide (codes = [])) as [-> | Hcodes].
  - unfold count_status. cbn. rewrite Hnone.
    by rewrite bool_decide_eq_false_2.
  - destruct (IH g Hnone Hcodes) as (c & Hlast & Hcode & Hcount).
    unfold count_status. rewrite Hcode.
    destruct (decide (c = code)) as [-> | Hdiff].
    + rewrite bool_decide_eq_true_2 by done. cbn. rewrite Hcount.
      split; [done | lia].
    + rewrite bool_decide_eq_false_2 by congruence. cbn. split; [done |].
      apply last_Some in Hlast as [front ->].
      rewrite trailing_snoc.
      by assert ((c =? code) = false) as -> by (by apply Z.eqb_neq).
Qed.

(** X10: counted from the reset state by the rule of the POST loop, a
    run of responses leaves in [last_status_code] the code of the last
    response and in [status_code_count] the number of responses at the end
    of the run that carry this same code; the flag, the phase and the
    no-vacancy counter are not touched. *)
Theorem status_count_is_run_length
    (codes : list Z) (c : Z) (g : globals) :
  last_status_code g = None ->
  last codes = Some c ->
  last_status_code (count_all codes g) = Some c
  /\ status_code_count (count_all codes g) = Z.of_nat (trailing c codes)
  /\ running (count_all codes g) = running g
  /\ current_state (count_all codes g) = current_state g
  /\ no_vacancy_count (count_all codes g) = no_vacancy_count g.
Proof.
  intros Hnone Hlast.
  destruct (count_all_last codes g Hnone) as (c' & Hlast' & Hcode & Hcount).
  { by intros ->. }
  rewrite Hlast in Hlast'. injection Hlast' as <-.
  split; [done |]. split; [done |].
  clear. unfold count_all.
  induction codes as [| code codes IH] using rev_ind; [done |].
  rewrite foldl_app. cbn. unfold count_status.
  by destruct (bool_decide _).
Qed.

(** X11: every response that ends the racer of [monitor_task] also ends
    the one of [reservation_task]; neither takes a status other than 200
    for a success; and the classification of [reservation_task] raises
    exactly on a 200 response whose JSON body is a number, a boolean or
    null, in which case the running flag is left as it is. *)
Theorem success_classifications_agree (r : response) :
  (FullAuto.is_success r = true -> Manual.is_success r = Ret true)
  /\ (status_code r <> 200 ->
      FullAuto.is_success r = false /\ Manual.is_success r = Ret false)
  /\ (Manual.is_success r = Raise TypeError <->
      status_code r = 200 /\ json r = JsonScalar)
  /\ (forall webhook p g,
        Manual.is_success r = Raise TypeError ->
        Manual.running (Manual.send_single_request webhook p (Ret r) g).1
        = Manual.running g).
Proof.
  unfold FullAuto.is_success, Manual.is_success.
  destruct (status_code r =? 200) eqn:Hcode; cbn.
  - apply Z.eqb_eq in Hcode.
    split; [| split; [done |]; split].
    + destruct (json r) as [| [| ? ?] | | |]; done.
    + destruct (json r); split; try done; intros [_ ?]; done.
    + intros webhook p g Herr. unfold Manual.send_single_request.
      unfold Manual.is_success. rewrite Hcode. cbn.
      destruct (json r); try done.
      unfold Manual.count_status. by destruct (bool_decide _).
  - apply Z.eqb_neq in Hcode.
    split; [done |]. split; [done |]. split; [| done].
    split; [done |]. by intros [? _].
Qed.

End MonitorExtraFacts.

Lemma cleared_flag_ends_monitor_witness :
  FullAuto.running (FullAuto.set_state FullAuto.Idle FullAuto.initial) = false.
Proof.
  apply (cleared_flag_ends_monitor Samples.adjust Samples.monitor_args
           [FullAuto.NoInput; FullAuto.NoInput; FullAuto.NoInput]
           FullAuto.initial
           (FullAuto.set_state FullAuto.Idle FullAuto.initial)
           FullAuto.AtSleep FullAuto.Done []).
  - reflexivity.
  - reflexivity.
Defined.

Lemma status_count_is_run_length_witness :
  FullAuto.status_code_count
    (Stopping.count_all [400; 422; 422; 422] FullAuto.initial)
  = 3.
Proof.
  apply (status_count_is_run_length [400; 422; 422; 422] 422 FullAuto.initial).
  - reflexivity.
  - reflexivity.
Defined.

(** ** Texts typed into the forms and read from files *)

Section FormFacts.

Import Forms.

Lemma lstrip_spec text :
  exists blanks,
    text = blanks ++ lstrip text
    /\ Forall (fun c => isspace_char c = true) blanks
    /\ (forall c, head (lstrip text) = Some c -> isspace_char c = false).
Proof.
  induction text as [| c text (blanks & Heq & Hblank & Hhead)].
  - exists []. by repeat split.
  - cbn. destruct (isspace_char c) eqn:Hc.
    + exists (c :: blanks). repeat split; [by rewrite Heq at 1 | | done].
      by constructor.
    + exists []. repeat split; [constructor |]. by intros ? [= <-].
Qed.

Lemma lstrip_fixed text :
  (forall c, head text = Some c -> isspace_char c = false) ->
  lstrip text = text.
Proof.
  destruct text as [| c text]; [done |]. intros H. cbn.
  by rewrite (H c).
Qed.

Lemma head_rev (text : pystr) : head (rev text) = last text.
Proof.
  induction text as [| c text IH] using rev_ind; [done |].
  by rewrite rev_app_distr, last_snoc.
Qed.

Lemma last_rev (text : pystr) : last (rev text) = head text.
Proof. by rewrite <- head_rev, rev_involutive. Qed.

Lemma strip_trimmed text : trimmed (strip text).
Proof.
  unfold trimmed, strip.
  destruct (lstrip_spec text) as (b1 & _ & _ & Hhead1).
  destruct (lstrip_spec (rev (lstrip text))) as (b2 & Heq2 & _ & Hhead2).
  split; intros c Hc.
  - rewrite head_rev in Hc. apply Hhead1.
    rewrite <- last_rev, Heq2.
    destruct (lstrip (rev (lstrip text))) as [| d rest] eqn:Hv; [done |].
    by rewrite last_app_cons.
  - rewrite last_rev in Hc. by apply Hhead2.
Qed.

Lemma strip_fixed text : trimmed text -> strip text = text.
Proof.
  intros [Hhead Hlast]. unfold strip.
  rewrite (lstrip_fixed text) by done.
  rewrite lstrip_fixed; [apply rev_involutive |].
  intros c. rewrite head_rev. apply Hlast.
Qed.

Lemma split_comma_nonempty text : Manual.split_comma text <> [].
Proof.
  destruct text as [| c text]; [done |]. cbn.
  destruct (c =? 44)%N; [done |]. by destruct (Manual.split_comma text).
Qed.

(** X12: [s.split(",")] as the forms use it: joining the pieces with
    commas gives back the text, no piece holds a comma, and the pieces are
    one more than the commas of the text, so that a text without comma,
    the empty one included, is one piece. *)
Theorem split_comma_round_trip (text : pystr) :
  join_comma (Manual.split_comma text) = text
  /\ Forall (fun piece => 44%N ∉ piece) (Manual.split_comma text)
  /\ length (Manual.split_comma text)
     = S (length (filter (fun c => c = 44%N) text)).
Proof.
  induction text as [| c text (Hjoin & Hfree & Hlen)].
  - repeat split. repeat constructor. by intros ?%elem_of_nil.
  - pose proof (split_comma_nonempty text) as Hne.
    assert (Manual.split_comma (c :: text)
            = if (c =? 44)%N then [] :: Manual.split_comma text
              else match Manual.split_comma text with
                   | piece :: pieces => (c :: piece) :: pieces
                   | [] => [[c]]
                   end) as -> by done.
    destruct (c =? 44)%N eqn:Hc.
    + apply N.eqb_eq in Hc as ->. split; [| split].
      * cbn. destruct (Manual.split_comma text); [done |]. by rewrite Hjoin.
      * constructor; [by intros ?%elem_of_nil | done].
      * rewrite filter_cons_True by done. cbn [length]. by rewrite Hlen.
    + apply N.eqb_neq in Hc.
      destruct (Manual.split_comma text) as [| piece pieces]; [done |].
      split; [| split].
      * cbn in *. destruct pieces; by rewrite <- Hjoin.
      * apply Forall_cons in Hfree as [Hp Hps]. constructor; [| done].
        intros [? | ?]%elem_of_cons; [congruence | done].
      * rewrite filter_cons_False by done. done.
Qed.

Lemma nonblank_as_filter text :
  nonblank_pieces text = filter (fun piece => piece <> []) (stripped_pieces text).
Proof.
  unfold nonblank_pieces, stripped_pieces.
  induction (Manual.split_comma text) as [| piece pieces IH]; [done |].
  rewrite fmap_cons. destruct (decide (strip piece <> [])) as [Hne | He].
  - rewrite !filter_cons_True by done. by rewrite fmap_cons, IH.
  - rewrite !filter_cons_False by done. done.
Qed.

(** X13: the id lists of the two programs.  Every id is trimmed of
    blanks at both ends in both.  [ManualReserver.py] keeps blank pieces:
    its list has one id per piece, never none, and the empty field gives
    the single empty id.  [FullAutoReserver.py] drops them: its list is the
    other one without the empty ids, and the empty field gives no id. *)
Theorem id_lists_are_trimmed (text : pystr) :
  Forall trimmed (stripped_pieces text)
  /\ length (stripped_pieces text)
     = S (length (filter (fun c => c = 44%N) text))
  /\ stripped_pieces [] = [[]]
  /\ nonblank_pieces text
     = filter (fun piece => piece <> []) (stripped_pieces text)
  /\ Forall (fun piece => piece <> [] /\ trimmed piece) (nonblank_pieces text)
  /\ nonblank_pieces [] = [].
Proof.
  split; [| split; [| split; [| split; [| split]]]].
  - unfold stripped_pieces. apply Forall_fmap, Forall_forall.
    intros piece _. apply strip_trimmed.
  - unfold stripped_pieces. rewrite length_fmap.
    apply split_comma_round_trip.
  - done.
  - apply nonblank_as_filter.
  - rewrite nonblank_as_filter. apply Forall_forall.
    intros piece [Hne Hin]%list_elem_of_filter. split; [done |].
    unfold stripped_pieces in Hin.
    apply list_elem_of_fmap in Hin as (raw & -> & _). apply strip_trimmed.
  - done.
Qed.

End FormFacts.

(** ** Cookie checks *)

Section CookieExtraFacts.

Import CookieHealth.

(** X14: whatever the outcome, [check_cookie_validity] leaves
    [checking] false, stores its own result under [valid] and the time
    under [last_check]; it returns [True] exactly when a cookie is stored
    and the endpoint answers 200; and it adds to the invalid-history log
    only when a stored cookie is answered with another status: an unset
    cookie and a transport error leave the log as it is. *)
Theorem check_cookie_validity_outcome
    (fs : files) (http : res Z) (now_long now_short : pystr) (h : health) :
  checking
    (status (check_cookie_validity fs http now_long now_short h).1) = false
  /\ valid (status (check_cookie_validity fs http now_long now_short h).1)
     = Some (check_cookie_validity fs http now_long now_short h).2
  /\ last_check
       (status (check_cookie_validity fs http now_long now_short h).1)
     = Some now_short
  /\ ((check_cookie_validity fs http now_long now_short h).2 = true <->
      default [] (cookie (load_settings fs)) <> [] /\ http = Ret 200)
  /\ (cookie_invalid_log (check_cookie_validity fs http now_long now_short h).1
      = cookie_invalid_log h
      \/ exists code,
           http = Ret code /\ code <> 200
           /\ default [] (cookie (load_settings fs)) <> []
           /\ cookie_invalid_log
                (check_cookie_validity fs http now_long now_short h).1
              = record_invalid
                  {| time := now_long; reason := CookieInvalid code |}
                  (cookie_invalid_log h)).
Proof.
  unfold check_cookie_validity.
  destruct (default [] (cookie (load_settings fs))) as [| ch rest] eqn:Hck.
  - cbn. repeat split; try done; [by intros [? _] | by left].
  - destruct http as [code | e].
    + destruct (code =? 200) eqn:Hcode; cbn.
      * apply Z.eqb_eq in Hcode as ->. repeat split; try done. by left.
      * apply Z.eqb_neq in Hcode. repeat split; try done.
        -- intros [_ [= ?]]. done.
        -- right. by exists code.
    + cbn. repeat split; try done; [by intros [_ ?] | by left].
Qed.

(** X15: when [relogin_and_update_cookie] returns [True], the
    subprocess returned, with any code, [cookie.txt] holds a text that is
    not blank, and the cookie stored is exactly that text without the
    blanks around it, which has no blank at either end; the other settings
    and [cookie.txt] are as before and the status holds the success
    message.  When it returns [False] both files are untouched and only
    the message changes.  It returns [False] whenever the subprocess
    raised, or [cookie.txt] is missing or blank. *)
Theorem relogin_outcome
    (proc : res Z) (now : pystr) (fs : files) (c : cookie_status) :
  ((relogin_and_update_cookie proc now fs c).2 = true ->
   exists code content,
     proc = Ret code /\ cookie_txt fs = Some content
     /\ strip content <> []
     /\ cookie (load_settings (relogin_and_update_cookie proc now fs c).1.1)
        = Some (strip content)
     /\ Forms.trimmed (strip content)
     /\ other_entries
          (load_settings (relogin_and_update_cookie proc now fs c).1.1)
        = other_entries (load_settings fs)
     /\ cookie_txt (relogin_and_update_cookie proc now fs c).1.1
        = cookie_txt fs
     /\ (relogin_and_update_cookie proc now fs c).1.2
        = set_result true ReloginSucceeded now c)
  /\ ((relogin_and_update_cookie proc now fs c).2 = false ->
      (relogin_and_update_cookie proc now fs c).1
      = (fs, set_message ReloginFailed c))
  /\ ((match proc with Raise _ => True | Ret _ => False end
       \/ cookie_txt fs = None
       \/ exists content, cookie_txt fs = Some content /\ strip content = []) ->
      (relogin_and_update_cookie proc now fs c).2 = false).
Proof.
  split; [| split].
  - unfold relogin_and_update_cookie.
    destruct proc as [code | e]; [| done].
    destruct (cookie_txt fs) as [content |] eqn:Hfile; [| done].
    destruct (strip content) as [| ch rest] eqn:Hstrip; [done |].
    intros _. exists code, content. rewrite Hstrip.
    repeat split; try done.
    + rewrite <- Hstrip. apply strip_trimmed.
    + rewrite <- Hstrip. apply strip_trimmed.
  - unfold relogin_and_update_cookie.
    destruct proc as [code | e]; [| done].
    destruct (cookie_txt fs) as [content |]; [| done].
    by destruct (strip content).
  - intros H. by rewrite relogin_without_output.
Qed.

End CookieExtraFacts.

(** ** Time Adjuster, beyond the claims *)

Section AdjusterExtraFacts.

Import TimeAdjuster Forms.

Variable unicode_digit : N -> option Z.
Variable unicode_decimal : N -> option Z.

Local Abbreviation adjust :=
  (adjust_time_for_post unicode_digit unicode_decimal).

Lemma ascii_digit_listed c : is_ascii_digit c -> In c ascii_digits.
Proof.
  clear unicode_digit unicode_decimal.
  intros [Hlo Hhi]. unfold ascii_digits.
  assert (c = 48 \/ c = 49 \/ c = 50 \/ c = 51 \/ c = 52 \/ c = 53
          \/ c = 54 \/ c = 55 \/ c = 56 \/ c = 57)%N as H by lia.
  cbn. intuition.
Qed.

Lemma all_four_digits_spec (test : pystr -> bool) (t : pystr) :
  all_four_digits test = true ->
  length t = 4%nat -> Forall is_ascii_digit t -> test t = true.
Proof.
  clear unicode_digit unicode_decimal.
  intros Hall Hlen Hdig.
  destruct t as [| a [| b [| c [| d [| ? ?]]]]]; try done.
  apply Forall_cons in Hdig as [Ha Hdig].
  apply Forall_cons in Hdig as [Hb Hdig].
  apply Forall_cons in Hdig as [Hc Hdig].
  apply Forall_cons in Hdig as [Hd _].
  unfold all_four_digits in Hall. rewrite forallb_forall in Hall.
  specialize (Hall a (ascii_digit_listed a Ha)).
  rewrite forallb_forall in Hall.
  specialize (Hall b (ascii_digit_listed b Hb)).
  rewrite forallb_forall in Hall.
  specialize (Hall c (ascii_digit_listed c Hc)).
  rewrite forallb_forall in Hall.
  exact (Hall d (ascii_digit_listed d Hd)).
Qed.

(** The result on four ASCII digits, before it is read back. *)
Lemma adjust_ascii_digits adjustments pavilion t :
  length t = 4%nat ->
  Forall is_ascii_digit t ->
  adjust adjustments pavilion t
  = Ret (spec_hhmm ((spec_to_minutes t
                     + default 0 (adjustments !! pavilion)) mod 1440)).
Proof.
  intros Hlen Hdig.
  set (m := (spec_to_minutes t + default 0 (adjustments !! pavilion))
            mod 1440).
  assert (0 <= m < 1440) as Hm by (apply Z.mod_pos_bound; lia).
  assert (0 <= m / 60 < 24) as Hh
    by (split; [apply Z.div_pos; lia | apply Z.div_lt_upper_bound; lia]).
  assert (0 <= m mod 60 < 60) as Hmm by (apply Z.mod_pos_bound; lia).
  destruct t as [| a [| b [| c [| d [| ? ?]]]]]; try done.
  apply Forall_cons in Hdig as [Ha Hdig].
  apply Forall_cons in Hdig as [Hb Hdig].
  apply Forall_cons in Hdig as [Hc Hdig].
  apply Forall_cons in Hdig as [Hd _].
  unfold adjust_time_for_post, isdigit. cbn [forallb length take drop].
  rewrite !(to_digit_ascii unicode_digit) by done.
  rewrite !bool_decide_eq_true_2 by eauto.
  cbn [andb negb orb Nat.eqb]. unfold int. cbn [int_from bind].
  rewrite !(to_decimal_ascii unicode_decimal) by done. cbn [bind].
  replace (((0 * 10 + (Z.of_N a - 48)) * 10 + (Z.of_N b - 48)) * 60
           + ((0 * 10 + (Z.of_N c - 48)) * 10 + (Z.of_N d - 48))
           + default 0 (adjustments !! pavilion))
    with (spec_to_minutes [a; b; c; d]
          + default 0 (adjustments !! pavilion)) by (cbn; lia).
  change (24 * 60) with 1440. fold m.
  rewrite !format_02d_two_digits by lia. done.
Qed.

(** What is written back reads as the minutes given, and is a clock
    time. *)
Lemma spec_hhmm_reads_back m :
  0 <= m < 1440 ->
  length (spec_hhmm m) = 4%nat
  /\ Forall is_ascii_digit (spec_hhmm m)
  /\ spec_to_minutes (spec_hhmm m) = m
  /\ valid_clock (spec_hhmm m).
Proof.
  intros Hm. unfold spec_hhmm, spec_to_minutes, valid_clock, is_ascii_digit.
  split; [done |].
  split; [repeat constructor; Z.div_mod_to_equations; lia |].
  assert (0 <= m / 60 / 10) by (Z.div_mod_to_equations; lia).
  assert (0 <= m mod 60 / 10) by (Z.div_mod_to_equations; lia).
  assert (0 <= (m / 60) mod 10) by (Z.div_mod_to_equations; lia).
  assert (0 <= (m mod 60) mod 10) by (Z.div_mod_to_equations; lia).
  rewrite !Z2N.id by lia.
  repeat split; Z.div_mod_to_equations; lia.
Qed.

(** A clock time is what its minutes are written back as. *)
Lemma valid_clock_written t :
  length t = 4%nat -> Forall is_ascii_digit t -> valid_clock t ->
  0 <= spec_to_minutes t < 1440 /\ spec_hhmm (spec_to_minutes t) = t.
Proof.
  clear unicode_digit unicode_decimal.
  intros Hlen Hdig Hvalid.
  destruct t as [| a [| b [| c [| d [| ? ?]]]]]; try done.
  apply Forall_cons in Hdig as [[] Hdig].
  apply Forall_cons in Hdig as [[] Hdig].
  apply Forall_cons in Hdig as [[] Hdig].
  apply Forall_cons in Hdig as [[] _].
  destruct Hvalid as [Hh Hm]. unfold spec_to_minutes, spec_hhmm.
  set (m := (Z.of_N a - 48) * 600 + (Z.of_N b - 48) * 60
            + (Z.of_N c - 48) * 10 + (Z.of_N d - 48)).
  assert (m / 60 = (Z.of_N a - 48) * 10 + (Z.of_N b - 48)) as ->
    by (subst m; Z.div_mod_to_equations; lia).
  assert (m mod 60 = (Z.of_N c - 48) * 10 + (Z.of_N d - 48)) as ->
    by (subst m; Z.div_mod_to_equations; lia).
  split; [subst m; lia |].
  assert (forall x y : N, (48 <= x <= 57)%N -> (48 <= y <= 57)%N ->
            Z.to_N (48 + ((Z.of_N x - 48) * 10 + (Z.of_N y - 48)) / 10) = x
            /\ Z.to_N (48 + ((Z.of_N x - 48) * 10 + (Z.of_N y - 48)) mod 10)
               = y) as Hpair.
  { intros x y Hx Hy.
    assert (((Z.of_N x - 48) * 10 + (Z.of_N y - 48)) / 10 = Z.of_N x - 48)
      as -> by (Z.div_mod_to_equations; lia).
    assert (((Z.of_N x - 48) * 10 + (Z.of_N y - 48)) mod 10 = Z.of_N y - 48)
      as -> by (Z.div_mod_to_equations; lia).
    split; lia. }
  destruct (Hpair a b) as [-> ->]; [done | done |].
  destruct (Hpair c d) as [-> ->]; done.
Qed.

(** X16: with a table whose offsets are integers, as
    [adjustments.py] writes them, [adjust_time_for_post] never raises on a
    text of ASCII characters, whatever the integers and the venue: it
    returns the text itself when it is not made of four digits, and
    otherwise four ASCII digits that are a clock time, with an hour of at
    most 23 and a minute of at most 59.  (An offset that is not an integer,
    such as -10.5 or -10.0, is outside the table modelled here.) *)
Theorem adjust_ascii_never_raises
    (adjustments : gmap pystr Z) (pavilion t : pystr) :
  Forall (fun c => (c < 128)%N) t ->
  exists r,
    adjust adjustments pavilion t = Ret r
    /\ ((r = t /\ ~ (length t = 4%nat /\ Forall is_ascii_digit t))
        \/ (length t = 4%nat /\ Forall is_ascii_digit t
            /\ length r = 4%nat /\ Forall is_ascii_digit r
            /\ valid_clock r)).
Proof.
  intros Hascii.
  destruct (decide (length t = 4%nat)) as [Hlen | Hlen].
  - assert (Decision (Forall is_ascii_digit t)) as [Hdig | Hdig]
      by (apply Forall_dec; intros c; unfold is_ascii_digit; apply _).
    + eexists. split; [by apply adjust_ascii_digits |]. right.
      split; [done |]. split; [done |].
      edestruct spec_hhmm_reads_back as (H1 & H2 & _ & H4);
        [apply Z.mod_pos_bound; lia |].
      split; [exact H1 |]. split; [exact H2 | exact H4].
    + exists t. split; [| left; split; [done | by intros [_ ?]]].
      apply adjust_rejects_ascii; [done | by intros [_ ?]].
  - exists t. split; [| left; split; [done | by intros [? _]]].
    apply adjust_rejects_ascii; [done | by intros [? _]].
Qed.

(** X17: without an offset for the venue, a text of four ASCII digits
    comes back unchanged exactly when it is a clock time; any other, such
    as an hour of 24 or a minute of 60, comes back as a different text, the
    clock time it amounts to. *)
Theorem adjust_without_offset
    (adjustments : gmap pystr Z) (pavilion t : pystr) :
  length t = 4%nat ->
  Forall is_ascii_digit t ->
  default 0 (adjustments !! pavilion) = 0 ->
  (adjust adjustments pavilion t = Ret t <-> valid_clock t)
  /\ exists r, adjust adjustments pavilion t = Ret r
               /\ valid_clock r
               /\ spec_to_minutes r = spec_to_minutes t mod 1440.
Proof.
  intros Hlen Hdig Hzero.
  rewrite adjust_ascii_digits, Hzero, Z.add_0_r by done.
  assert (0 <= spec_to_minutes t mod 1440 < 1440) as Hm
    by (apply Z.mod_pos_bound; lia).
  destruct (spec_hhmm_reads_back _ Hm) as (_ & _ & Hread & Hvalid).
  split.
  - split.
    + intros [= Heq]. by rewrite <- Heq.
    + intros Hv.
      destruct (valid_clock_written t Hlen Hdig Hv) as [Hrange Hback].
      by rewrite Z.mod_small, Hback.
  - by eexists.
Qed.

(** X18: offsets add up.  Adjusting four ASCII digits by one offset and
    the result by another is adjusting once by their sum, a whole day more
    or less changes nothing, and adjusting back by the opposite offset
    gives the clock time the text amounts to. *)
Theorem adjust_offsets_add (pavilion t : pystr) (o1 o2 : Z) :
  length t = 4%nat ->
  Forall is_ascii_digit t ->
  exists t1,
    adjust {[ pavilion := o1 ]} pavilion t = Ret t1
    /\ adjust {[ pavilion := o2 ]} pavilion t1
       = adjust {[ pavilion := o1 + o2 ]} pavilion t
    /\ adjust {[ pavilion := o1 + 1440 ]} pavilion t = Ret t1
    /\ adjust {[ pavilion := - o1 ]} pavilion t1 = adjust ∅ pavilion t.
Proof.
  intros Hlen Hdig.
  assert (forall o, 0 <= (spec_to_minutes t + o) mod 1440 < 1440) as Hm
    by (intros o; apply Z.mod_pos_bound; lia).
  destruct (spec_hhmm_reads_back _ (Hm o1)) as (Hlen1 & Hdig1 & Hread1 & _).
  exists (spec_hhmm ((spec_to_minutes t + o1) mod 1440)).
  rewrite !(adjust_ascii_digits _ _ t) by done.
  rewrite !(adjust_ascii_digits _ _ (spec_hhmm _)) by done.
  rewrite !lookup_singleton_eq, lookup_empty. cbn [default from_option].
  rewrite Hread1.
  repeat split; do 2 f_equal; unfold id; Z.div_mod_to_equations; lia.
Qed.

End AdjusterExtraFacts.

Lemma adjust_ascii_never_raises_witness :
  exists r,
    TimeAdjuster.adjust_time_for_post
      TimeAdjuster.excerpt_digit TimeAdjuster.excerpt_decimal
      ∅ (str "H1H9") (str "7pm") = Ret r.
Proof.
  destruct (adjust_ascii_never_raises
              TimeAdjuster.excerpt_digit TimeAdjuster.excerpt_decimal
              ∅ (str "H1H9") (str "7pm")) as (r & Hr & _).
  - repeat constructor.
  - by exists r.
Defined.

Lemma adjust_without_offset_witness :
  exists r,
    TimeAdjuster.adjust_time_for_post
      TimeAdjuster.excerpt_digit TimeAdjuster.excerpt_decimal
      ∅ (str "H1H9") (str "2460") = Ret r
    /\ Forms.valid_clock r.
Proof.
  destruct (adjust_without_offset
              TimeAdjuster.excerpt_digit TimeAdjuster.excerpt_decimal
              ∅ (str "H1H9") (str "2460")) as (_ & r & Hr & Hv & _).
  - reflexivity.
  - repeat constructor; vm_compute; discriminate.
  - reflexivity.
  - by exists r.
Defined.

Lemma adjust_offsets_add_witness :
  exists t1,
    TimeAdjuster.adjust_time_for_post
      TimeAdjuster.excerpt_digit TimeAdjuster.excerpt_decimal
      {[ str "H1H9" := -10 ]} (str "H1H9") (str "0005") = Ret t1.
Proof.
  destruct (adjust_offsets_add
              TimeAdjuster.excerpt_digit TimeAdjuster.excerpt_decimal
              (str "H1H9") (str "0005") (-10) 10) as (t1 & H1 & _).
  - reflexivity.
  - repeat constructor; vm_compute; discriminate.
  - by exists t1.
Defined.

(** ** The offset calibration *)

Section CalibrationFacts.

Import TimeAdjuster Forms Calibration.

Variable unicode_digit : N -> option Z.
Variable unicode_decimal : N -> option Z.

Lemma strptime_four_digits t :
  length t = 4%nat ->
  Forall is_ascii_digit t ->
  (valid_clock t
   /\ exists h m, strptime unicode_decimal t = Returns (h, m)
                  /\ h * 60 + m = spec_to_minutes t)
  \/ (~ valid_clock t /\ strptime unicode_decimal t = Raises BadTime).
Proof.
  clear unicode_digit. intros Hlen Hdig.
  assert (all_four_digits (reads_clock_time unicode_decimal) = true) as Hall
    by (vm_compute; reflexivity).
  pose proof (all_four_digits_spec _ t Hall Hlen Hdig) as Ht.
  destruct t as [| a [| b [| c [| d [| ? ?]]]]]; try done.
  unfold reads_clock_time in Ht.
  destruct (strptime unicode_decimal [a; b; c; d]) as [[h m] | []];
    [| | done].
  - apply bool_decide_eq_true in Ht as (-> & -> & Hh & Hm).
    left. split; [done |]. eexists _, _. split; [done |]. cbn. lia.
  - apply bool_decide_eq_true in Ht. by right.
Qed.

(** [adjust_time_str] on a clock time of four ASCII digits. *)
Lemma adjust_time_str_four_digits t k :
  length t = 4%nat ->
  Forall is_ascii_digit t ->
  valid_clock t ->
  0 <= epoch_minutes + spec_to_minutes t - k < max_minutes ->
  adjust_time_str unicode_decimal t k
  = Returns (spec_hhmm ((spec_to_minutes t - k) mod 1440)).
Proof.
  clear unicode_digit.
  intros Hlen Hdig Hvalid Hrange.
  destruct (strptime_four_digits t Hlen Hdig)
    as [(_ & h & m & Hparse & Hsum) | [Hbad _]]; [| done].
  set (w := (spec_to_minutes t - k) mod 1440).
  assert (0 <= w < 1440) as Hw by (apply Z.mod_pos_bound; lia).
  unfold adjust_time_str. rewrite Hparse.
  replace (epoch_minutes + h * 60 + m - k)
    with (epoch_minutes + spec_to_minutes t - k) by lia.
  assert ((0 <=? epoch_minutes + spec_to_minutes t - k)
          && (epoch_minutes + spec_to_minutes t - k <? max_minutes) = true)
    as -> by (apply andb_true_iff; split;
              [apply Z.leb_le | apply Z.ltb_lt]; lia).
  assert ((epoch_minutes + spec_to_minutes t - k) mod 1440 = w) as ->
    by (subst w; unfold epoch_minutes; Z.div_mod_to_equations; lia).
  assert ((epoch_minutes + spec_to_minutes t - k) mod 60 = w mod 60) as ->
    by (subst w; unfold epoch_minutes; Z.div_mod_to_equations; lia).
  rewrite !format_02d_two_digits by (Z.div_mod_to_equations; lia).
  done.
Qed.

(** X19: the calibration tool and the reserver agree.  For a clock time
    of four ASCII digits, [adjust_time_str] with [k] minutes returns what
    [adjust_time_for_post] returns with the offset [-k] in the table, as
    long as the date arithmetic stays within the years 1 to 9999. *)
Theorem calibration_agrees_with_reserver (pavilion t : pystr) (k : Z) :
  length t = 4%nat ->
  Forall is_ascii_digit t ->
  valid_clock t ->
  0 <= epoch_minutes + spec_to_minutes t - k < max_minutes ->
  exists r,
    adjust_time_str unicode_decimal t k = Returns r
    /\ adjust_time_for_post unicode_digit unicode_decimal
         {[ pavilion := - k ]} pavilion t = Ret r.
Proof.
  intros Hlen Hdig Hvalid Hrange.
  rewrite adjust_ascii_digits, lookup_singleton_eq by done.
  cbn [default from_option]. unfold id.
  rewrite adjust_time_str_four_digits by done.
  rewrite <- Z.add_opp_r. by eexists.
Qed.

(** X20: of the texts of four ASCII digits, [adjust_time_str] takes the
    clock times only: with no shift it returns a clock time as it is, and
    for an hour above 23 or a minute above 59 it raises [ValueError]
    whatever the shift, where [adjust_time_for_post] returns the clock time
    the digits amount to. *)
Theorem calibration_takes_clock_times_only (pavilion t : pystr) :
  length t = 4%nat ->
  Forall is_ascii_digit t ->
  (valid_clock t <-> adjust_time_str unicode_decimal t 0 = Returns t)
  /\ (~ valid_clock t ->
      (forall k, adjust_time_str unicode_decimal t k = Raises BadTime)
      /\ exists r,
           adjust_time_for_post unicode_digit unicode_decimal ∅ pavilion t
           = Ret r
           /\ valid_clock r /\ r <> t).
Proof.
  intros Hlen Hdig.
  destruct (strptime_four_digits t Hlen Hdig)
    as [(Hvalid & h & m & Hparse & Hsum) | [Hbad Hparse]].
  - split; [| done]. split; [intros _ | done].
    destruct (valid_clock_written t Hlen Hdig Hvalid) as [Hrange Hback].
    rewrite (adjust_time_str_four_digits t 0) by
      (try done; unfold epoch_minutes, max_minutes; lia).
    rewrite Z.sub_0_r, Z.mod_small by done. by rewrite Hback.
  - split.
    + split; [done |]. unfold adjust_time_str. by rewrite Hparse.
    + intros _. split.
      * intros k. unfold adjust_time_str. by rewrite Hparse.
      * rewrite adjust_ascii_digits, lookup_empty by done.
        cbn [default from_option]. unfold id. rewrite Z.add_0_r.
        assert (0 <= spec_to_minutes t mod 1440 < 1440) as Hm
          by (apply Z.mod_pos_bound; lia).
        destruct (spec_hhmm_reads_back _ Hm) as (_ & _ & _ & Hv).
        eexists. split; [done |]. split; [done |].
        intros Heq. apply Hbad. by rewrite <- Heq.
Qed.

Lemma answered_422_spec (r : res Z) : answered_422 r = true <-> r = Ret 422.
Proof.
  clear unicode_digit unicode_decimal.
  destruct r as [code |]; cbn; [| done].
  rewrite Z.eqb_eq. split; congruence.
Qed.

(** The loop of [test_pavilion] over any list of offsets. *)
Lemma try_offsets_spec base respond offs : forall sent p,
  try_offsets unicode_decimal base respond offs sent = Returns p ->
  exists tried,
    posted p = sent ++ tried
    /\ ((offset p = 0 /\ Forall (fun o => respond o <> Ret 422) offs
         /\ length tried = length offs)
        \/ exists before o after T,
             offs = before ++ o :: after
             /\ Forall (fun o' => respond o' <> Ret 422) before
             /\ respond o = Ret 422
             /\ offset p = - o
             /\ adjust_time_str unicode_decimal base o = Returns T
             /\ last (posted p) = Some T
             /\ length tried = S (length before)).
Proof.
  induction offs as [| o rest IH]; intros sent p Hrun.
  - injection Hrun as <-. exists []. cbn. rewrite app_nil_r.
    split; [done |]. left. by repeat split.
  - cbn in Hrun.
    destruct (adjust_time_str unicode_decimal base o) as [T |] eqn:HT;
      [| done].
    destruct (answered_422 (respond o)) eqn:Hanswer.
    + apply answered_422_spec in Hanswer as Hhit. injection Hrun as <-. exists [T]. cbn. split; [done |]. right.
      exists [], o, rest, T. repeat split; try done. by rewrite last_snoc.
    + assert (respond o <> Ret 422) as Hmiss
        by (intros Hhit; apply answered_422_spec in Hhit; congruence).
      destruct (IH _ _ Hrun) as (tried & Hposted & Hcases).
      exists (T :: tried). split; [by rewrite Hposted, <- app_assoc |].
      destruct Hcases as [(Hzero & Hnone & Hlen)
                         | (before & o' & after & T' & -> & Hb & Ho & Hoff
                            & HT' & Hlast & Hlen)].
      * left. repeat split; [done | by constructor | cbn; lia].
      * right. exists (o :: before), o', after, T'.
        repeat split; try done; [by constructor | cbn; lia].
Qed.

(** In a list that increases, what is smaller than an element stands
    before it. *)
Lemma smaller_comes_before (before : list Z) (o : Z) (after : list Z) (o' : Z) :
  StronglySorted Z.lt (before ++ o :: after) ->
  o' ∈ before ++ o :: after ->
  o' < o ->
  o' ∈ before.
Proof.
  clear unicode_digit unicode_decimal.
  induction before as [| b before IH]; cbn; intros Hsorted Hin Hlt.
  - apply StronglySorted_inv in Hsorted as [_ Hafter].
    apply elem_of_cons in Hin as [-> | Hin]; [lia |].
    eapply Forall_forall in Hafter; [| done]. lia.
  - apply StronglySorted_inv in Hsorted as [Hsorted _].
    apply elem_of_cons in Hin as [-> | Hin]; [by left |].
    right. by apply IH.
Qed.

(** The offset returned is one of those tried, negated. *)
Lemma test_pavilion_offset_listed base_time respond p :
  test_pavilion unicode_decimal base_time respond = Returns p ->
  - offset p ∈ offsets.
Proof.
  clear unicode_digit.
  intros Hrun. unfold test_pavilion in Hrun.
  apply try_offsets_spec in Hrun as (tried & Hposted & Hcases).
  destruct Hcases
    as [(Hzero & _) | (before & o & after & T & Hoffs & _ & _ & Hoff & _)].
  - rewrite Hzero. by left.
  - rewrite Hoff, Z.opp_involutive, Hoffs. apply elem_of_app. right. by left.
Qed.

(** X21: [test_pavilion] posts between one and seven times and returns
    one of 0, -5, ..., -30.  It returns [-o] for the first offset [o] of
    0, 5, ..., 30 that is answered with 422, and then the last time posted
    is [adjust_time_str(base_time, o)]; when no offset is answered with
    422 it has posted seven times and returns 0. *)
Theorem test_pavilion_finds_first_422
    (base_time : pystr) (respond : Z -> res Z) (p : probe) :
  test_pavilion unicode_decimal base_time respond = Returns p ->
  - offset p ∈ offsets
  /\ (1 <= length (posted p) <= 7)%nat
  /\ ((offset p = 0 /\ Forall (fun o => respond o <> Ret 422) offsets
       /\ length (posted p) = 7%nat)
      \/ exists T,
           respond (- offset p) = Ret 422
           /\ (forall o, o ∈ offsets -> o < - offset p ->
                         respond o <> Ret 422)
           /\ adjust_time_str unicode_decimal base_time (- offset p)
              = Returns T
           /\ last (posted p) = Some T).
Proof.
  intros Hrun. unfold test_pavilion in Hrun.
  apply try_offsets_spec in Hrun as (tried & Hposted & Hcases).
  cbn in Hposted. rewrite Hposted.
  destruct Hcases as [(Hzero & Hnone & Hlen)
                     | (before & o & after & T & Hoffs & Hb & Ho & Hoff
                        & HT & Hlast & Hlen)].
  - rewrite Hzero, Hlen. split; [by left |]. split; [cbn; lia |]. by left.
  - rewrite Hoff, Z.opp_involutive.
    assert (o ∈ offsets) as Hin
      by (rewrite Hoffs; apply elem_of_app; right; by left).
    assert (length before < 7)%nat as Hshort.
    { apply (f_equal length) in Hoffs. rewrite length_app in Hoffs.
      cbn in Hoffs. lia. }
    split; [done |]. split; [lia |]. right. exists T.
    split; [done |]. split; [| by rewrite <- Hposted].
    intros o' Hin' Hlt.
    assert (o' ∈ before) as Hbefore; [| by eapply Forall_forall in Hb].
    apply (smaller_comes_before before o after o'); [| by rewrite <- Hoffs | done].
    rewrite <- Hoffs. unfold offsets. repeat constructor.
Qed.

(** The table built by the loop of [generate_adjustments_from_ebii]. *)
Lemma collect_spec items : forall n respond table result,
  collect unicode_decimal items n respond table = Returns result ->
  forall code v,
    result !! code = Some v ->
    table !! code = Some v
    \/ (- v ∈ offsets /\ code <> []
        /\ exists it, it ∈ items /\ c it = Some code).
Proof.
  induction items as [| it rest IH]; intros n respond table result Hrun code v Hv.
  - injection Hrun as <-. by left.
  - cbn -[test_pavilion] in Hrun.
    assert (forall table',
              collect unicode_decimal rest (S n) respond table' = Returns result ->
              (forall v', table' !! code = Some v' ->
                 table !! code = Some v'
                 \/ (- v' ∈ offsets /\ code <> [] /\ c it = Some code)) ->
              table !! code = Some v
              \/ (- v ∈ offsets /\ code <> []
                  /\ exists it', it' ∈ it :: rest /\ c it' = Some code))
      as Hnext.
    { intros table' Hrest Htable.
      destruct (IH _ _ _ _ Hrest code v Hv)
        as [Hold | (Hin & Hne & it' & Hit & Hc)].
      - destruct (Htable v Hold) as [? | (? & ? & ?)]; [by left | right].
        repeat split; try done. exists it. split; [by left | done].
      - right. repeat split; try done. exists it'. split; [by right | done]. }
    destruct (c it) as [[| ch code'] |] eqn:Hcode; cbn -[test_pavilion] in Hrun;
      try (apply (Hnext table Hrun); by left).
    destruct (last (s it)) as [slot |]; [| apply (Hnext table Hrun); by left].
    destruct (default [] slot) as [| bh base]; cbn -[test_pavilion] in Hrun;
      [apply (Hnext table Hrun); by left |].
    destruct (test_pavilion unicode_decimal (bh :: base) (respond n))
      as [p |] eqn:Htest; cbn -[test_pavilion] in Hrun; [| done].
    apply (Hnext _ Hrun). intros v' Hv'.
    destruct (decide (code = ch :: code')) as [-> | Hne].
    + rewrite lookup_insert_eq in Hv'. injection Hv' as <-. right.
      split; [by apply test_pavilion_offset_listed in Htest |].
      split; [discriminate | done].
    + rewrite lookup_insert_ne in Hv' by done. by left.
Qed.

(** X22: every entry of a table made by
    [generate_adjustments_from_ebii] has the code of an item of the data,
    not empty, as key and one of 0, -5, ..., -30 as offset; with such a
    table [adjust_time_for_post] moves a time of four ASCII digits back by
    at most 30 minutes.  When the data cannot be fetched the table is
    empty. *)
Theorem generated_offsets_are_bounded
    (data : res (list item)) (respond : nat -> Z -> res Z)
    (table : gmap pystr Z) (code : pystr) (v : Z) :
  generate_adjustments_from_ebii unicode_decimal data respond
  = Returns table ->
  table !! code = Some v ->
  - v ∈ offsets
  /\ -30 <= v <= 0
  /\ code <> []
  /\ (exists items it, data = Ret items /\ it ∈ items /\ c it = Some code)
  /\ (forall t, length t = 4%nat -> Forall is_ascii_digit t ->
        adjust_time_for_post unicode_digit unicode_decimal table code t
        = Ret (spec_hhmm ((spec_to_minutes t + v) mod 1440))).
Proof.
  intros Hgen Hv. unfold generate_adjustments_from_ebii in Hgen.
  destruct data as [items | e].
  - destruct (collect_spec items 0 respond ∅ table Hgen code v Hv)
      as [Hempty | (Hin & Hne & it & Hit & Hc)]; [done |].
    split; [done |]. split.
    { unfold offsets in Hin.
      repeat (apply elem_of_cons in Hin as [? | Hin]; [lia |]).
      by apply elem_of_nil in Hin. }
    split; [done |]. split; [by exists items, it |].
    intros t Hlen Hdig. rewrite adjust_ascii_digits by done. by rewrite Hv.
  - injection Hgen as <-. done.
Qed.

End CalibrationFacts.

Lemma calibration_agrees_with_reserver_witness :
  exists r,
    Calibration.adjust_time_str TimeAdjuster.excerpt_decimal (str "0005") 10
    = Calibration.Returns r.
Proof.
  destruct (calibration_agrees_with_reserver
              TimeAdjuster.excerpt_digit TimeAdjuster.excerpt_decimal
              (str "H1H9") (str "0005") 10) as (r & Hr & _).
  - reflexivity.
  - repeat constructor; vm_compute; discriminate.
  - split; vm_compute; discriminate.
  - split; vm_compute; [discriminate | reflexivity].
  - by exists r.
Defined.

Lemma calibration_takes_clock_times_only_witness :
  Calibration.adjust_time_str TimeAdjuster.excerpt_decimal (str "1845") 0
  = Calibration.Returns (str "1845").
Proof.
  apply (calibration_takes_clock_times_only
           TimeAdjuster.excerpt_digit TimeAdjuster.excerpt_decimal
           (str "H1H9") (str "1845")).
  - reflexivity.
  - repeat constructor; vm_compute; discriminate.
  - split; vm_compute; discriminate.
Defined.

Lemma test_pavilion_finds_first_422_witness :
  (1 <= length [str "1845"; str "1840"; str "1835"] <= 7)%nat.
Proof.
  apply (test_pavilion_finds_first_422 TimeAdjuster.excerpt_decimal
           (str "1845")
           (fun o => if o =? 10 then Ret 422 else Ret 400)
           {| Calibration.offset := -10;
              Calibration.posted := [str "1845"; str "1840"; str "1835"] |}).
  reflexivity.
Defined.

Lemma generated_offsets_are_bounded_witness :
  -30 <= -10 <= 0.
Proof.
  apply (generated_offsets_are_bounded
           TimeAdjuster.excerpt_digit TimeAdjuster.excerpt_decimal
           (Ret [ {| Calibration.c := Some (str "H1H9");
                     Calibration.s := [Some (str "1800"); Some (str "1845")] |} ])
           (fun _ o => if o =? 10 then Ret 422 else Ret 400)
           {[ str "H1H9" := -10 ]} (str "H1H9") (-10)).
  - by vm_compute.
  - by vm_compute.
Defined.
